(** * movinfo: a shallow embedding of the timecode codec and of the
    ffprobe report parser ([src/unnamed/part_001], package main). *)

From Stdlib Require Import ZArith Lia List Bool Ascii String.
Import ListNotations.
Open Scope string_scope.
Open Scope Z_scope.

(* ------------------------------------------------------------------ *)
(** ** Go runtime: 64-bit [int], byte strings, [strconv] *)

Module Go.

(** Go's [int] is 64 bits wide; additions wrap around. *)
Definition wrap64 (z : Z) : Z := ((z + 2 ^ 63) mod 2 ^ 64) - 2 ^ 63.

Definition max_int : Z := 2 ^ 63 - 1.
Definition min_int : Z := - 2 ^ 63.

(** A Go string is a sequence of bytes: [String.string] (a list of
    8-bit [ascii]); [len] is [String.length]. *)
Definition char (n : nat) : string := String (ascii_of_nat n) EmptyString.

Definition is_digit (c : ascii) : bool :=
  let n := nat_of_ascii c in (48 <=? n)%nat && (n <=? 57)%nat.

Definition digit_val (c : ascii) : Z := Z.of_nat (nat_of_ascii c) - 48.

(** The decimal digit [d] (0 <= d <= 9) as a byte. *)
Definition digit_char (d : Z) : ascii := ascii_of_nat (Z.to_nat (48 + d)).

(** Decimal digits of a natural number, most significant first
    ([fuel] bounds the number of digits). *)
Fixpoint utoa_aux (fuel : nat) (n : Z) (acc : string) : string :=
  match fuel with
  | O => acc
  | S fuel' =>
      let acc' := String (digit_char (n mod 10)) acc in
      if n <? 10 then acc' else utoa_aux fuel' (n / 10) acc'
  end.

Definition utoa (n : Z) : string :=
  utoa_aux (S (Z.to_nat (Z.log2 (n + 1)))) n EmptyString.

(** [strconv.Itoa]. *)
Definition itoa (z : Z) : string :=
  if z <? 0 then "-" ++ utoa (- z) else utoa z.

(** Accumulate the decimal value of a run of digits; [None] when a byte
    is not a digit (the [ch > 9] test of [strconv]). *)
Fixpoint digits_value (s : string) (acc : Z) : option Z :=
  match s with
  | EmptyString => Some acc
  | String c rest =>
      if is_digit c then digits_value rest (acc * 10 + digit_val c) else None
  end.

(** [strconv.Atoi] on a 64-bit platform: an optional sign ['+'] or ['-']
    followed by at least one decimal digit, the value within [int];
    anything else is an error ([None]). Both the fast path and the
    [ParseInt] path accept exactly these strings (base 10: no
    underscores, no prefixes). *)
Definition atoi (s : string) : option Z :=
  let '(neg, body) :=
    match s with
    | String c rest =>
        if Ascii.eqb c "-" then (true, rest)
        else if Ascii.eqb c "+" then (false, rest)
        else (false, s)
    | EmptyString => (false, s)
    end in
  match body with
  | EmptyString => None
  | _ =>
      match digits_value body 0 with
      | None => None
      | Some v =>
          let n := if neg then - v else v in
          if (min_int <=? n) && (n <=? max_int) then Some n else None
      end
  end.

(** [strings.HasPrefix] and [strings.TrimPrefix]. *)
Definition has_prefix (s p : string) : bool := String.prefix p s.

Definition trim_prefix (s p : string) : string :=
  if String.prefix p s then substring (String.length p) (String.length s) s
  else s.

(** [s[i:j]] for in-range bounds. *)
Definition slice (s : string) (i j : nat) : string := substring i (j - i) s.

End Go.

Import Go.

(* ------------------------------------------------------------------ *)
(** ** Timecode ([type Timecode], [NewTimecode], [Add], [String]) *)

Record Timecode := mkTimecode {
  base : Z;
  drop : bool;
  frame : Z
}.

(** The errors of the program, one constructor per [fmt.Errorf] site
    (identical messages share a constructor). *)
Inductive error :=
| ErrUnknownBase (b : Z)              (* "unknown base for timecode: %v:" *)
| ErrInvalidTimecode (code : string)  (* "invalid timecode: %v" (code) *)
| ErrNoStream                         (* "cannot find [STREAM] lines" *)
| ErrUnexpectedStreamLine             (* "unexpected stream line" *)
| ErrNoVideoStream                    (* "not found video stream" *)
| ErrUnmatchedVideoStream             (* "unmatched video stream" *)
| ErrInvalidFrames (l : string)       (* "invalid frames: %v" *)
| ErrInvalidTimecodeLine (l : string) (* "invalid timecode: %v" (line) *)
| ErrMissingTimecode                  (* "missing TAG:timecode information" *)
| ErrMissingFps                       (* "missing fps information" *)
| ErrMissingFrames                    (* "missing nb_frames information" *)
| ErrUnsupportedFps (fps : string)    (* "unsupported fps: %v" *)
| ErrMissingWidth                     (* "missing width information" *)
| ErrMissingHeight.                   (* "missing height information" *)

(** The four two-byte groups [code[i:i+2]], [i = 0, 3, 6, 9], read with
    [strconv.Atoi]; the first failing group aborts. *)
Definition read_groups (code : string) : option (Z * Z * Z * Z) :=
  match atoi (slice code 0 2), atoi (slice code 3 5),
        atoi (slice code 6 8), atoi (slice code 9 11) with
  | Some h, Some m, Some s, Some f => Some (h, m, s, f)
  | _, _, _, _ => None
  end.

(** [NewTimecode]: [inl] is the returned error, [inr] the timecode. The
    groups have at most two bytes, so the arithmetic stays far inside
    the 64-bit range and needs no wrap-around. *)
Definition NewTimecode (code : string) (base : Z) (drop : bool)
  : error + Timecode :=
  if negb ((base =? 24) || (base =? 30)) then inl (ErrUnknownBase base)
  else
    let drop := if (base =? 24) && drop then false else drop in
    if negb (Nat.eqb (String.length code) 11) then inl (ErrInvalidTimecode code)
    else
      match read_groups code with
      | None => inl (ErrInvalidTimecode code)
      | Some (h, m, s, f) =>
          let frame := 3600 * h * base + 60 * m * base + s * base + f in
          let frame :=
            if drop then
              let totalMinutes := 60 * h + m in
              frame - 2 * (totalMinutes - Z.quot totalMinutes 10)
            else frame in
          inr (mkTimecode base drop frame)
      end.

(** the method [Add] of [*Timecode]. *)
Definition Add (t : Timecode) (n : Z) : Timecode :=
  mkTimecode (base t) (drop t) (wrap64 (frame t + n)).

(** The four numbers [h, m, s, f] computed by the method [String] of [*Timecode]
    ([/] and [%] on Go ints truncate: [Z.quot] and [Z.rem]). *)
Definition tc_fields (t : Timecode) : Z * Z * Z * Z :=
  let base := base t in
  let frame := frame t in
  let frame :=
    if drop t then
      let D := Z.quot frame 17982 in
      let M := Z.rem frame 17982 in
      let d := Z.quot (M - 2) 1798 in
      wrap64 (frame + (18 * D + 2 * d))
    else frame in
  let h := Z.rem (Z.quot (Z.quot (Z.quot frame base) 60) 60) 24 in
  let m := Z.rem (Z.quot (Z.quot frame base) 60) 60 in
  let s := Z.rem (Z.quot frame base) 60 in
  let f := Z.rem frame base in
  (h, m, s, f).

(** One field: [strconv.Itoa], with a ["0"] prefixed to a one-byte
    result. *)
Definition pad2 (c : Z) : string :=
  let tc := itoa c in
  if Nat.eqb (String.length tc) 1 then "0" ++ tc else tc.

(** the method [String] of [*Timecode]: the loop over [codes] with its separators. *)
Definition String_ (t : Timecode) : string :=
  let '(h, m, s, f) := tc_fields t in
  let last_sep := if drop t then ";" else ":" in
  pad2 h ++ ":" ++ pad2 m ++ ":" ++ pad2 s ++ last_sep ++ pad2 f.

(* ------------------------------------------------------------------ *)
(** ** Go's [strings] package on byte strings *)

Module Strings.

(** The whitespace runes of [unicode.IsSpace] (used by [TrimSpace] and
    [Fields]), found on the bytes of their UTF-8 encodings: the ASCII
    spaces, U+0085, U+00A0, U+1680, U+2000..U+200A, U+2028, U+2029,
    U+202F, U+205F and U+3000. A byte not starting one of them is one
    non-space unit (invalid UTF-8 decodes to a one-byte [RuneError];
    continuation bytes never start a space encoding). *)
Inductive chunk := Sp (bytes : string) | By (c : ascii).

Definition ascii_space (c : ascii) : bool :=
  let n := nat_of_ascii c in
  ((9 <=? n) && (n <=? 13) || (n =? 32))%nat.

Definition two_byte_space (c1 c2 : ascii) : bool :=
  let n1 := nat_of_ascii c1 in let n2 := nat_of_ascii c2 in
  ((n1 =? 194) && ((n2 =? 133) || (n2 =? 160)))%nat.

Definition three_byte_space (c1 c2 c3 : ascii) : bool :=
  let n1 := nat_of_ascii c1 in let n2 := nat_of_ascii c2 in
  let n3 := nat_of_ascii c3 in
  ((n1 =? 225) && (n2 =? 154) && (n3 =? 128)
   || (n1 =? 226) && (n2 =? 128)
      && ((128 <=? n3) && (n3 <=? 138) || (n3 =? 168) || (n3 =? 169)
          || (n3 =? 175))
   || (n1 =? 226) && (n2 =? 129) && (n3 =? 159)
   || (n1 =? 227) && (n2 =? 128) && (n3 =? 128))%nat.

Fixpoint chunks (s : string) : list chunk :=
  match s with
  | EmptyString => []
  | String c rest =>
      if ascii_space c then Sp (String c EmptyString) :: chunks rest
      else
        match rest with
        | String c2 rest2 =>
            if two_byte_space c c2
            then Sp (String c (String c2 EmptyString)) :: chunks rest2
            else
              match rest2 with
              | String c3 rest3 =>
                  if three_byte_space c c2 c3
                  then Sp (String c (String c2 (String c3 EmptyString)))
                         :: chunks rest3
                  else By c :: chunks rest
              | EmptyString => By c :: chunks rest
              end
        | EmptyString => By c :: chunks rest
        end
  end.

Fixpoint unchunk (cs : list chunk) : string :=
  match cs with
  | [] => EmptyString
  | Sp b :: cs' => b ++ unchunk cs'
  | By c :: cs' => String c (unchunk cs')
  end.

Fixpoint drop_spaces (cs : list chunk) : list chunk :=
  match cs with
  | Sp _ :: cs' => drop_spaces cs'
  | _ => cs
  end.

(** [strings.TrimSpace]. *)
Definition TrimSpace (s : string) : string :=
  unchunk (rev (drop_spaces (rev (drop_spaces (chunks s))))).

Fixpoint fields_aux (cs : list chunk) (cur : string) : list string :=
  match cs with
  | [] => if String.eqb cur "" then [] else [cur]
  | Sp _ :: cs' =>
      if String.eqb cur "" then fields_aux cs' "" else cur :: fields_aux cs' ""
  | By c :: cs' => fields_aux cs' (cur ++ String c EmptyString)
  end.

(** [strings.Fields]: the maximal runs of non-space bytes. *)
Definition Fields (s : string) : list string := fields_aux (chunks s) "".

(** [strings.Split(s, "\n")]. *)
Definition newline : ascii := ascii_of_nat 10.

Fixpoint split_nl_aux (s cur : string) : list string :=
  match s with
  | EmptyString => [cur]
  | String c rest =>
      if Ascii.eqb c newline then cur :: split_nl_aux rest ""
      else split_nl_aux rest (cur ++ String c EmptyString)
  end.

Definition SplitLines (s : string) : list string := split_nl_aux s "".

(** [strings.Index(s, pat)]: the first position of [pat] in [s]. *)
Fixpoint Index_from (s pat : string) (i : nat) : option nat :=
  if String.prefix pat s then Some i
  else
    match s with
    | EmptyString => None
    | String _ rest => Index_from rest pat (S i)
    end.

Definition Index (s pat : string) : option nat := Index_from s pat 0.

(** [strings.SplitAfter(s, sep)] for a non-empty [sep]: every piece keeps
    the separator that ends it, the last piece is the remainder.
    [fuel] is at least the number of bytes left. *)
Fixpoint split_after_aux (fuel : nat) (sep s cur : string) : list string :=
  match fuel with
  | O => [cur ++ s]
  | S fuel' =>
      match s with
      | EmptyString => [cur]
      | String c rest =>
          if String.prefix sep s
          then (cur ++ sep)
                 :: split_after_aux fuel' sep
                      (substring (String.length sep) (String.length s) s) ""
          else split_after_aux fuel' sep rest (cur ++ String c EmptyString)
      end
  end.

Definition SplitAfter (s sep : string) : list string :=
  split_after_aux (S (String.length s)) sep s "".

(** [strings.TrimLeft(s, "0123456789")]. *)
Fixpoint TrimLeftDigits (s : string) : string :=
  match s with
  | String c rest => if is_digit c then TrimLeftDigits rest else s
  | EmptyString => EmptyString
  end.

End Strings.

Import Strings.





(* ------------------------------------------------------------------ *)
(** ** The report parser ([type config], [type result], [parse]) *)

Record config := mkConfig {
  cfg_start : bool;
  cfg_end : bool;
  cfg_duration : bool;
  cfg_fps : bool;
  cfg_resolution : bool;
  cfg_codec : bool;
  cfg_colorspace : bool
}.

Record result := mkResult {
  res_start : string;
  res_end : string;
  res_duration : string;
  res_fps : string;
  res_resolution : string;
  res_codec : string;
  res_colorspace : string
}.

Definition empty_result : result := mkResult "" "" "" "" "" "" "".

(** Outcome of the extraction half of [parse]: a Go runtime panic (an
    index out of range), an early [return res, err], or the values it
    hands to the field assembly. *)
Inductive outcome (A : Type) :=
| OPanic : outcome A
| OErr : error -> outcome A
| OOk : A -> outcome A.
Arguments OPanic {A}.
Arguments OErr {A} _.
Arguments OOk {A} _.

(** The index of the first token equal to ["fps"] or ["fps,"]. *)
Fixpoint fps_token_index (flds : list string) (i : nat) : option nat :=
  match flds with
  | [] => None
  | f :: rest =>
      if String.eqb f "fps" || String.eqb f "fps," then Some i
      else fps_token_index rest (S i)
  end.

(** The loop over the overview lines, threading [fps] and [videoIdx]. *)
Fixpoint scan_overview (lines : list string) (fps : string) (videoIdx : Z)
  : outcome (string * Z) :=
  match lines with
  | [] => OOk (fps, videoIdx)
  | l :: ls =>
      let l := TrimSpace l in
      if has_prefix l "Stream #0:" && String.eqb fps "" then
        let flds := Fields l in
        match nth_error flds 2 with
        | None => OPanic                                   (* flds[2] *)
        | Some fld2 =>
            if negb (String.eqb fld2 "Video:") then scan_overview ls fps videoIdx
            else
              let rest := trim_prefix l "Stream #0:" in
              if Nat.eqb (String.length rest) 0 then OErr ErrUnexpectedStreamLine
              else
                let trimDigits := TrimLeftDigits rest in
                let n := substring 0 (String.length rest - String.length trimDigits) rest in
                match atoi n with
                | None => OErr ErrUnexpectedStreamLine
                | Some videoIdx =>
                    match fps_token_index flds 0 with
                    | None => scan_overview ls fps videoIdx
                    | Some O => OPanic                      (* flds[-1] *)
                    | Some (S k) =>
                        match nth_error flds k with
                        | None => OPanic
                        | Some fps => scan_overview ls fps videoIdx
                        end
                    end
                end
        end
      else scan_overview ls fps videoIdx
  end.

(** The local variables of the video-block scan. *)
Record block := mkBlock {
  frames : Z;
  width : string;
  height : string;
  timecode : string;
  codec : string;
  codec_profile : string;
  pix_fmt : string;
  colorspace : string
}.

Definition block0 : block := mkBlock 0 "" "" "" "" "" "" "".

Definition set_frames b v := mkBlock v (width b) (height b) (timecode b)
  (codec b) (codec_profile b) (pix_fmt b) (colorspace b).
Definition set_width b v := mkBlock (frames b) v (height b) (timecode b)
  (codec b) (codec_profile b) (pix_fmt b) (colorspace b).
Definition set_height b v := mkBlock (frames b) (width b) v (timecode b)
  (codec b) (codec_profile b) (pix_fmt b) (colorspace b).
Definition set_timecode b v := mkBlock (frames b) (width b) (height b) v
  (codec b) (codec_profile b) (pix_fmt b) (colorspace b).
Definition set_codec b v := mkBlock (frames b) (width b) (height b)
  (timecode b) v (codec_profile b) (pix_fmt b) (colorspace b).
Definition set_codec_profile b v := mkBlock (frames b) (width b) (height b)
  (timecode b) (codec b) v (pix_fmt b) (colorspace b).
Definition set_pix_fmt b v := mkBlock (frames b) (width b) (height b)
  (timecode b) (codec b) (codec_profile b) v (colorspace b).
Definition set_colorspace b v := mkBlock (frames b) (width b) (height b)
  (timecode b) (codec b) (codec_profile b) (pix_fmt b) v.

(** [if strings.HasPrefix(l, key) && <var> == "" { <var> = TrimPrefix } ]. *)
Definition first_seen (l key : string) (get : block -> string)
  (set : block -> string -> block) (b : block) : block :=
  if has_prefix l key && String.eqb (get b) "" then set b (trim_prefix l key)
  else b.

(** One iteration of the block loop, after the early-exit test. *)
Definition scan_line (l : string) (b : block) : error + block :=
  let nb :=
    if has_prefix l "nb_frames=" && (frames b =? 0) then
      match atoi (trim_prefix l "nb_frames=") with
      | None => inl (ErrInvalidFrames l)
      | Some n => inr (set_frames b n)
      end
    else inr b in
  match nb with
  | inl e => inl e
  | inr b =>
      let b := first_seen l "width=" width set_width b in
      let b := first_seen l "height=" height set_height b in
      let b := first_seen l "codec_name=" codec set_codec b in
      let b := first_seen l "profile=" codec_profile set_codec_profile b in
      let b := first_seen l "pix_fmt=" pix_fmt set_pix_fmt b in
      let b := first_seen l "color_space=" colorspace set_colorspace b in
      if has_prefix l "TAG:timecode=" then
        let tc := trim_prefix l "TAG:timecode=" in
        if negb (Nat.eqb (String.length tc) 11)
        then inl (ErrInvalidTimecodeLine l)
        else inr (set_timecode b tc)
      else inr b
  end.

(** The early-exit test at the top of each iteration. *)
Definition scan_done (fps : string) (b : block) : bool :=
  negb (String.eqb fps "") && negb (String.eqb (timecode b) "")
  && negb (frames b =? 0).

Fixpoint scan_block (fps : string) (lines : list string) (b : block)
  : error + block :=
  match lines with
  | [] => inr b
  | l :: ls =>
      if scan_done fps b then inr b
      else
        match scan_line l b with
        | inl e => inl e
        | inr b => scan_block fps ls b
        end
  end.

(** The first half of [parse], up to the end of the block loop. *)
Definition extract (data : string) : outcome (string * block) :=
  match Index data "[STREAM]" with
  | None => OErr ErrNoStream
  | Some idx =>
      let overview := substring 0 idx data in
      let streamData := substring idx (String.length data - idx) data in
      match scan_overview (SplitLines overview) "" (-1) with
      | OPanic => OPanic
      | OErr e => OErr e
      | OOk (fps, videoIdx) =>
          if videoIdx =? -1 then OErr ErrNoVideoStream
          else
            let streams := SplitAfter streamData "[/STREAM]" in
            if videoIdx >=? Z.of_nat (List.length streams)
            then OErr ErrUnmatchedVideoStream
            else if videoIdx <? 0 then OPanic
            else
              match nth_error streams (Z.to_nat videoIdx) with
              | None => OPanic
              | Some videoStream =>
                  match scan_block fps (SplitLines videoStream) block0 with
                  | inl e => OErr e
                  | inr b => OOk (fps, b)
                  end
              end
      end
  end.

(** The field assembly threads the named result [res] and stops at the
    first [return res, err], which hands back [res] as it stands. *)
Definition M := result -> result * option error.

Definition skip : M := fun res => (res, None).
Definition fail (e : error) : M := fun res => (res, Some e).
Definition seq (a b : M) : M :=
  fun res => match a res with
             | (res', None) => b res'
             | (res', Some e) => (res', Some e)
             end.

Definition set_start (v : string) : M := fun r =>
  (mkResult v (res_end r) (res_duration r) (res_fps r) (res_resolution r)
     (res_codec r) (res_colorspace r), None).
Definition set_end (v : string) : M := fun r =>
  (mkResult (res_start r) v (res_duration r) (res_fps r) (res_resolution r)
     (res_codec r) (res_colorspace r), None).
Definition set_duration (v : string) : M := fun r =>
  (mkResult (res_start r) (res_end r) v (res_fps r) (res_resolution r)
     (res_codec r) (res_colorspace r), None).
Definition set_fps (v : string) : M := fun r =>
  (mkResult (res_start r) (res_end r) (res_duration r) v (res_resolution r)
     (res_codec r) (res_colorspace r), None).
Definition set_resolution (v : string) : M := fun r =>
  (mkResult (res_start r) (res_end r) (res_duration r) (res_fps r) v
     (res_codec r) (res_colorspace r), None).
Definition set_codec_field (v : string) : M := fun r =>
  (mkResult (res_start r) (res_end r) (res_duration r) (res_fps r)
     (res_resolution r) v (res_colorspace r), None).
Definition set_colorspace_field (v : string) : M := fun r =>
  (mkResult (res_start r) (res_end r) (res_duration r) (res_fps r)
     (res_resolution r) (res_codec r) v, None).

Definition supported_fps (fps : string) : bool :=
  String.eqb fps "30" || String.eqb fps "29.97" || String.eqb fps "24"
  || String.eqb fps "23.98" || String.eqb fps "23.976".

Definition fps_base (fps : string) : Z :=
  if String.eqb fps "30" || String.eqb fps "29.97" then 30 else 24.

Definition fps_drop (fps : string) : bool := String.eqb fps "29.97".

Section Assembly.

(** [strings.Title(strings.ToLower(.))], used only for the codec name;
    its Unicode case tables are the library's, so it stays abstract. *)
Variable title_lower : string -> string.

Definition field_start (cfg : config) (b : block) : M :=
  if cfg_start cfg then
    if String.eqb (timecode b) "" then fail ErrMissingTimecode
    else set_start (timecode b)
  else skip.

Definition field_end (cfg : config) (fps : string) (b : block) : M :=
  if cfg_end cfg then
    if String.eqb (timecode b) "" then fail ErrMissingTimecode
    else if String.eqb fps "" then fail ErrMissingFps
    else if frames b =? 0 then fail ErrMissingFrames
    else if negb (supported_fps fps) then fail (ErrUnsupportedFps fps)
    else
      match NewTimecode (timecode b) (fps_base fps) (fps_drop fps) with
      | inl e => fail e
      | inr tc => set_end (String_ (Add tc (wrap64 (frames b - 1))))
      end
  else skip.

Definition field_duration (cfg : config) (b : block) : M :=
  if cfg_duration cfg then
    if frames b =? 0 then fail ErrMissingFrames
    else set_duration (itoa (frames b))
  else skip.

Definition field_fps (cfg : config) (fps : string) : M :=
  if cfg_fps cfg then set_fps fps else skip.

Definition field_resolution (cfg : config) (b : block) : M :=
  if cfg_resolution cfg then
    if String.eqb (width b) "" then fail ErrMissingWidth
    else if String.eqb (height b) "" then fail ErrMissingHeight
    else set_resolution (width b ++ "*" ++ height b)
  else skip.

Definition field_codec (cfg : config) (b : block) : M :=
  if cfg_codec cfg then
    set_codec_field (title_lower (codec b) ++ " " ++ codec_profile b
                     ++ " / " ++ pix_fmt b)
  else skip.

Definition field_colorspace (cfg : config) (b : block) : M :=
  if cfg_colorspace cfg then set_colorspace_field (colorspace b) else skip.

(** The requested fields, in the order of the source. *)
Definition field_steps (cfg : config) (fps : string) (b : block) : list M :=
  [field_start cfg b; field_end cfg fps b; field_duration cfg b;
   field_fps cfg fps; field_resolution cfg b; field_codec cfg b;
   field_colorspace cfg b].

Definition run_steps (steps : list M) : M := fold_right seq skip steps.

(** [parse]: [None] is a runtime panic; otherwise the pair [(res, err)]
    that the Go function returns ([err = None] is [nil]). *)
Definition parse (data : string) (cfg : config)
  : option (result * option error) :=
  match extract data with
  | OPanic => None
  | OErr e => Some (empty_result, Some e)
  | OOk (fps, b) => Some (run_steps (field_steps cfg fps b) empty_result)
  end.

End Assembly.

(* ------------------------------------------------------------------ *)
(** ** [main] after [flag.Parse()] *)

(** How a run of [main] ends: the usage text (printed to stderr, exit
    status 0), one of its [log.Fatal] calls, a runtime panic, or the
    lines printed by [fmt.Println] before a normal exit. *)
Inductive main_exit :=
| MUsage                          (* len(args) != 1 *)
| MFatalNoFlag                    (* "need to set at least one of ..." *)
| MFatalExec (output : string)    (* "failed to execute: %s" *)
| MFatalErr (e : error)           (* log.Fatal(err) after parse *)
| MPanic
| MPrint (stdout : list string).

(** The [fmt.Println] calls: each field of [res] that is not empty, in
    the order of the source. *)
Definition print_result (res : result) : list string :=
  (if String.eqb (res_start res) "" then [] else [res_start res])
  ++ (if String.eqb (res_end res) "" then [] else [res_end res])
  ++ (if String.eqb (res_duration res) "" then [] else [res_duration res])
  ++ (if String.eqb (res_fps res) "" then [] else [res_fps res])
  ++ (if String.eqb (res_resolution res) "" then [] else [res_resolution res])
  ++ (if String.eqb (res_codec res) "" then [] else [res_codec res])
  ++ (if String.eqb (res_colorspace res) "" then [] else [res_colorspace res]).

(** [main] from [args := flag.Args()] on, with the flags already parsed
    into [cfg]. [ffprobe file] is the combined output of
    [ffprobe -show_streams file] and whether the command succeeded. The
    extension [ext] that [main] computes is never used, and taking
    [ext[1:]] of a non-empty extension cannot fail, so it is left out. *)
Definition main_run (title : string -> string) (args : list string)
    (cfg : config) (ffprobe : string -> string * bool) : main_exit :=
  match args with
  | [file] =>
      if negb (cfg_start cfg) && negb (cfg_end cfg) && negb (cfg_duration cfg)
         && negb (cfg_fps cfg) && negb (cfg_resolution cfg)
         && negb (cfg_codec cfg) && negb (cfg_colorspace cfg)
      then MFatalNoFlag
      else
        let '(out, ok) := ffprobe file in
        if negb ok then MFatalExec out
        else
          match parse title out cfg with
          | None => MPanic
          | Some (_, Some e) => MFatalErr e
          | Some (res, None) => MPrint (print_result res)
          end
  | _ => MUsage
  end.

(** An ASCII-only instance of [strings.Title(strings.ToLower(.))] for
    concrete runs: lower-case every letter, then upper-case each letter
    that follows a separator (neither a letter, a digit nor ['_']). *)
Definition ascii_lower (c : ascii) : ascii :=
  let n := nat_of_ascii c in
  if ((65 <=? n) && (n <=? 90))%nat then ascii_of_nat (n + 32) else c.

Definition ascii_upper (c : ascii) : ascii :=
  let n := nat_of_ascii c in
  if ((97 <=? n) && (n <=? 122))%nat then ascii_of_nat (n - 32) else c.

Definition word_byte (c : ascii) : bool :=
  let n := nat_of_ascii c in
  ((48 <=? n) && (n <=? 57) || (97 <=? n) && (n <=? 122)
   || (65 <=? n) && (n <=? 90) || (n =? 95))%nat.

Fixpoint title_lower_aux (prev_sep : bool) (s : string) : string :=
  match s with
  | EmptyString => EmptyString
  | String c rest =>
      let c := ascii_lower c in
      String (if prev_sep then ascii_upper c else c)
             (title_lower_aux (negb (word_byte c)) rest)
  end.

Definition title_lower_ascii (s : string) : string := title_lower_aux true s.

(** Sample reports: [nl] is a line feed. *)
Definition nl : string := String newline EmptyString.

Definition all_fields : config := mkConfig true true true true true true true.

Definition report_A : string :=
  "Input #0, mov,mp4, from 'a.mov':" ++ nl ++
  "  Stream #0:0(und): Video: prores (HQ) (apch / 0x68637061), yuv422p10le, 1920x1080, 29.97 fps, 29.97 tbr (default)" ++ nl ++
  "  Stream #0:1(und): Data: none (tmcd / 0x64636D74)" ++ nl ++
  "[STREAM]" ++ nl ++ "index=0" ++ nl ++ "codec_name=prores" ++ nl ++
  "profile=HQ" ++ nl ++ "width=1920" ++ nl ++ "height=1080" ++ nl ++
  "pix_fmt=yuv422p10le" ++ nl ++ "color_space=bt709" ++ nl ++
  "nb_frames=102" ++ nl ++ "TAG:timecode=00:00:00:00" ++ nl ++
  "[/STREAM]" ++ nl ++ "[STREAM]" ++ nl ++ "index=1" ++ nl ++
  "TAG:timecode=00:00:00:00" ++ nl ++ "[/STREAM]" ++ nl.

(** A two-digit decimal group [DD] for [0 <= n < 100]. *)
Definition dd (n : Z) : string :=
  String (digit_char (n / 10)) (String (digit_char (n mod 10)) EmptyString).

(** The 11-byte text [HH:MM:SS<sep>FF]. *)
Definition tc_text (sep : string) (h m s f : Z) : string :=
  dd h ++ ":" ++ dd m ++ ":" ++ dd s ++ sep ++ dd f.

(** A drop-frame timecode that names a skipped frame code: frames 00 and
    01 of second 00 of a minute that is not a multiple of ten. *)
Definition skipped_code (m s f : Z) : Prop :=
  s = 0 /\ 0 <= f < 2 /\ m mod 10 <> 0.

(** The (base, drop) pairs the callers use. *)
Definition supported_pair (base : Z) (drop : bool) : Prop :=
  (base = 24 /\ drop = false) \/ (base = 30 /\ drop = false)
  \/ (base = 30 /\ drop = true).

(** A two-byte group that [strconv.Atoi] accepts, written out: two
    decimal digits, or a sign followed by one digit. *)
Definition group_ok (g : string) : bool :=
  match g with
  | String a (String c EmptyString) =>
      (is_digit a || Ascii.eqb a "+" || Ascii.eqb a "-") && is_digit c
  | _ => false
  end.

(** The pattern [DD:DD:DD:DD] as the spec words it: decimal digits at
    positions 0-1, 3-4, 6-7, 9-10 and [:] at positions 2, 5, 8. *)
Definition spec_tc_pattern (code : string) : bool :=
  match list_ascii_of_string code with
  | [h1; h2; c1; m1; m2; c2; s1; s2; c3; f1; f2] =>
      forallb is_digit [h1; h2; m1; m2; s1; s2; f1; f2]
      && forallb (fun c => Ascii.eqb c ":") [c1; c2; c3]
  | _ => false
  end.

(** The fields of a [result] by their position in the source order. *)
Definition get_field (i : nat) (r : result) : string :=
  match i%nat with
  | O => res_start r
  | 1%nat => res_end r
  | 2%nat => res_duration r
  | 3%nat => res_fps r
  | 4%nat => res_resolution r
  | 5%nat => res_codec r
  | 6%nat => res_colorspace r
  | _ => ""
  end.

(** An assembly step that writes no field but the [i]-th. *)
Definition only_field (i : nat) (step : M) : Prop :=
  forall r j, j <> i -> get_field j (fst (step r)) = get_field j r.

(** An assembly step that, when it fails, hands back [res] unchanged. *)
Definition fails_in_place (step : M) : Prop :=
  forall r r' e, step r = (r', Some e) -> r' = r.

(** More sample reports, one line per list element. *)
Definition join_lines (ls : list string) : string :=
  fold_right (fun l acc => l ++ nl ++ acc) "" ls.

Definition video_line : string :=
  "  Stream #0:0(und): Video: h264 (High) (avc1 / 0x31637661), yuv420p, 1920x1080, 29.97 fps, 29.97 tbr".

Definition report_nb_frames_zero : string :=
  join_lines ["Input #0, mov,mp4, from 'b.mov':"; video_line; "[STREAM]";
              "nb_frames=0"; "nb_frames=5"; "width=1920"; "height=1080";
              "[/STREAM]"].

Definition report_no_width : string :=
  join_lines ["Input #0, mov,mp4, from 'c.mov':"; video_line; "[STREAM]";
              "TAG:timecode=01:00:00:00"; "[/STREAM]"].

Definition report_short_stream_line : string :=
  join_lines ["Stream #0:0"; "[STREAM]"; "[/STREAM]"].

Definition report_late_width : string :=
  join_lines ["Input #0, mov,mp4, from 'd.mov':"; video_line; "[STREAM]";
              "nb_frames=102"; "TAG:timecode=00:00:00:00"; "width=1920";
              "height=1080"; "[/STREAM]"].

Definition report_negative_frames : string :=
  join_lines ["Input #0, mov,mp4, from 'e.mov':"; video_line; "[STREAM]";
              "nb_frames=-5"; "[/STREAM]"].

Definition cfg_start_resolution : config :=
  mkConfig true false false false true false false.
Definition cfg_resolution_only : config :=
  mkConfig false false false false true false false.
Definition cfg_duration_only : config :=
  mkConfig false false true false false false false.

Definition report_dup_timecode : string :=
  join_lines ["Input #0, mov,mp4, from 'f.mov':"; video_line; "[STREAM]";
              "TAG:timecode=01:00:00:00"; "TAG:timecode=02:00:00:00";
              "[/STREAM]"].

(** The values a block already holds: a non-zero frame count and the
    non-empty strings of the first-seen keys. [kept b b'] says that [b']
    still holds them. *)
Definition kept (b b' : block) : Prop :=
  (frames b <> 0 -> frames b' = frames b)
  /\ (width b <> "" -> width b' = width b)
  /\ (height b <> "" -> height b' = height b)
  /\ (codec b <> "" -> codec b' = codec b)
  /\ (codec_profile b <> "" -> codec_profile b' = codec_profile b)
  /\ (pix_fmt b <> "" -> pix_fmt b' = pix_fmt b)
  /\ (colorspace b <> "" -> colorspace b' = colorspace b).

(** A block's timecode is either unset or has the 11 characters of
    [hh:mm:ss:ff]. *)
Definition tc_ok (b : block) : Prop :=
  timecode b = "" \/ String.length (timecode b) = 11%nat.

(* ------------------------------------------------------------------ *)
(** * Properties *)

Example fields_sample :
  Fields (TrimSpace "  Stream #0:0(und): Video: h264,  29.97 fps, 30 tbr ")
  = ["Stream"; "#0:0(und):"; "Video:"; "h264,"; "29.97"; "fps,"; "30"; "tbr"].
Proof. vm_compute. reflexivity. Qed.

Example split_after_sample :
  SplitAfter "[STREAM]a[/STREAM][STREAM]b[/STREAM]" "[/STREAM]"
  = ["[STREAM]a[/STREAM]"; "[STREAM]b[/STREAM]"; ""].
Proof. vm_compute. reflexivity. Qed.

Example parse_report_A :
  parse title_lower_ascii report_A all_fields =
  Some (mkResult "00:00:00:00" "00:00:03;11" "102" "29.97" "1920*1080"
          "Prores HQ / yuv422p10le" "bt709", None).
Proof. vm_compute. reflexivity. Qed.

Lemma pad2_dd (n : Z) : 0 <= n < 100 -> pad2 n = dd n.
Proof.
  intros Hn.
  assert (H : forall k, (k < 100)%nat -> pad2 (Z.of_nat k) = dd (Z.of_nat k)).
  { intros k Hk. do 100 (destruct k as [|k]; [reflexivity|]). lia. }
  rewrite <- (Z2Nat.id n) by lia. apply H. lia.
Qed.

Lemma atoi_dd (n : Z) : 0 <= n < 100 -> atoi (dd n) = Some n.
Proof.
  intros Hn.
  assert (H : forall k, (k < 100)%nat -> atoi (dd (Z.of_nat k)) = Some (Z.of_nat k)).
  { intros k Hk. do 100 (destruct k as [|k]; [reflexivity|]). lia. }
  rewrite <- (Z2Nat.id n) by lia. apply H. lia.
Qed.

Lemma wrap64_small (z : Z) : min_int <= z <= max_int -> wrap64 z = z.
Proof.
  unfold wrap64, min_int, max_int. intros Hz.
  rewrite Z.mod_small by lia. lia.
Qed.

Lemma read_groups_tc_text (sep : string) (h m s f : Z) :
  String.length sep = 1%nat ->
  0 <= h < 100 -> 0 <= m < 100 -> 0 <= s < 100 -> 0 <= f < 100 ->
  String.length (tc_text sep h m s f) = 11%nat
  /\ read_groups (tc_text sep h m s f) = Some (h, m, s, f).
Proof.
  intros Hsep Hh Hm Hs Hf.
  destruct sep as [|c [|c' r]]; simpl in Hsep; try discriminate.
  unfold read_groups, tc_text, dd, slice. simpl.
  split; [reflexivity|].
  change (String (digit_char (h / 10)) (String (digit_char (h mod 10)) EmptyString)) with (dd h).
  change (String (digit_char (m / 10)) (String (digit_char (m mod 10)) EmptyString)) with (dd m).
  change (String (digit_char (s / 10)) (String (digit_char (s mod 10)) EmptyString)) with (dd s).
  change (String (digit_char (f / 10)) (String (digit_char (f mod 10)) EmptyString)) with (dd f).
  rewrite !atoi_dd by lia. reflexivity.
Qed.

Lemma quot_rem_unique (a b q r : Z) :
  0 <= q -> 0 <= r < b -> a = b * q + r -> Z.quot a b = q /\ Z.rem a b = r.
Proof.
  intros Hq Hr Ha.
  assert (0 <= a) by nia.
  rewrite Z.quot_div_nonneg, Z.rem_mod_nonneg by lia.
  split; symmetry; [apply Z.div_unique with r | apply Z.mod_unique with q]; lia.
Qed.

(** Splitting a non-negative frame number [b * (60 * (60 * H + m) + s) + f]
    the way [String] does. *)
Lemma split_fields (b H m s f : Z) :
  0 < b -> 0 <= H -> 0 <= m < 60 -> 0 <= s < 60 -> 0 <= f < b ->
  let x := b * (60 * (60 * H + m) + s) + f in
  Z.rem (Z.quot (Z.quot (Z.quot x b) 60) 60) 24 = H mod 24
  /\ Z.rem (Z.quot (Z.quot x b) 60) 60 = m
  /\ Z.rem (Z.quot x b) 60 = s /\ Z.rem x b = f.
Proof.
  intros Hb HH Hm Hs Hf x.
  destruct (quot_rem_unique x b (60 * (60 * H + m) + s) f) as [q1 r1];
    [lia | lia | reflexivity |].
  rewrite q1, r1.
  destruct (quot_rem_unique (60 * (60 * H + m) + s) 60 (60 * H + m) s) as [q2 r2];
    [lia | lia | reflexivity |].
  rewrite q2, r2.
  destruct (quot_rem_unique (60 * H + m) 60 H m) as [q3 r3]; [lia | lia | ring |].
  rewrite q3, r3.
  rewrite Z.rem_mod_nonneg by lia. auto.
Qed.

(** The arithmetic of a non-drop round trip. *)
Lemma nondrop_fields (b h m s f : Z) :
  (b = 24 \/ b = 30) ->
  0 <= h < 24 -> 0 <= m < 60 -> 0 <= s < 60 -> 0 <= f < b ->
  tc_fields (mkTimecode b false (3600 * h * b + 60 * m * b + s * b + f))
  = (h, m, s, f).
Proof.
  intros Hb Hh Hm Hs Hf. unfold tc_fields; cbn [base frame drop].
  replace (3600 * h * b + 60 * m * b + s * b + f)
    with (b * (60 * (60 * h + m) + s) + f) by ring.
  destruct (split_fields b h m s f) as (E1 & E2 & E3 & E4); try lia.
  rewrite E1, E2, E3, E4, Z.mod_small by lia. reflexivity.
Qed.

(** The drop-frame correction of [String] undoes the one of
    [NewTimecode]: [q] ten-minute groups, [r] minutes into the group,
    [x] frames into the minute (a minute that drops codes starts at
    frame 2). *)
Lemma drop_restore (q r x : Z) :
  0 <= q -> 0 <= r < 10 -> 0 <= x < 1800 -> (r <> 0 -> 2 <= x) ->
  let x0 := 17982 * q + 1798 * r + x in
  x0 + (18 * Z.quot x0 17982 + 2 * Z.quot (Z.rem x0 17982 - 2) 1798)
  = 18000 * q + 1800 * r + x.
Proof.
  intros Hq Hr Hx Hskip x0.
  destruct (quot_rem_unique x0 17982 q (1798 * r + x)) as [E1 E2];
    [lia | lia | unfold x0; ring |].
  rewrite E1, E2.
  destruct (Z.eq_dec r 0) as [-> | Hr0].
  - destruct (Z_lt_le_dec x 2) as [Hlt | Hge].
    + assert (E3 : Z.quot (1798 * 0 + x - 2) 1798 = 0)
        by (assert (x = 0 \/ x = 1) as [-> | ->] by lia; reflexivity).
      rewrite E3. unfold x0. ring.
    + destruct (quot_rem_unique (1798 * 0 + x - 2) 1798 0 (x - 2)) as [E3 _];
        [lia | lia | ring |].
      rewrite E3. unfold x0. ring.
  - specialize (Hskip Hr0).
    destruct (quot_rem_unique (1798 * r + x - 2) 1798 r (x - 2)) as [E3 _];
      [lia | lia | ring |].
    rewrite E3. unfold x0. ring.
Qed.

Lemma drop_fields (h m s f : Z) :
  0 <= h < 24 -> 0 <= m < 60 -> 0 <= s < 60 -> 0 <= f < 30 ->
  ~ skipped_code m s f ->
  let T := 60 * h + m in
  tc_fields (mkTimecode 30 true
    (3600 * h * 30 + 60 * m * 30 + s * 30 + f - 2 * (T - Z.quot T 10)))
  = (h, m, s, f).
Proof.
  intros Hh Hm Hs Hf Hskip T.
  unfold tc_fields; cbn [base frame drop].
  assert (HTdef : T = 60 * h + m) by reflexivity. clearbody T.
  rewrite (Z.quot_div_nonneg T 10) by lia.
  assert (ET : T = 10 * (T / 10) + T mod 10) by (apply Z.div_mod; lia).
  assert (Hr : T mod 10 = m mod 10).
  { subst T. replace (60 * h + m) with (m + (6 * h) * 10) by ring.
    apply Z.mod_add. lia. }
  assert (Hm10 : 0 <= T mod 10 < 10) by (apply Z.mod_pos_bound; lia).
  assert (HT : 0 <= T / 10) by (apply Z.div_pos; lia).
  replace (3600 * h * 30 + 60 * m * 30 + s * 30 + f - 2 * (T - T / 10))
    with (17982 * (T / 10) + 1798 * (T mod 10) + (30 * s + f)) by lia.
  rewrite (drop_restore (T / 10) (T mod 10) (30 * s + f)); try lia.
  2:{ intros Hr0. unfold skipped_code in Hskip. lia. }
  rewrite wrap64_small by (unfold min_int, max_int; lia).
  replace (18000 * (T / 10) + 1800 * (T mod 10) + (30 * s + f))
    with (30 * (60 * (60 * h + m) + s) + f) by lia.
  destruct (split_fields 30 h m s f) as (E1 & E2 & E3 & E4); try lia.
  rewrite E1, E2, E3, E4, Z.mod_small by lia. reflexivity.
Qed.

(** C1 (counterexample): with drop frame, [String] writes [;] before the
    frame field, so the text read by [NewTimecode "00:00:00:00" 30 true]
    is not given back. *)
Lemma roundtrip_drop_separator_differs :
  NewTimecode "00:00:00:00" 30 true = inr (mkTimecode 30 true 0)
  /\ String_ (mkTimecode 30 true 0) = "00:00:00;00"
  /\ String_ (mkTimecode 30 true 0) <> "00:00:00:00".
Proof. vm_compute. split; [reflexivity | split; [reflexivity | discriminate]]. Qed.

(** C1 (amended): for the pairs (24, non-drop), (30, non-drop) and
    (30, drop), and every text [HH:MM:SS:FF] with hours below 24,
    minutes and seconds below 60 and frames below the base,
    [NewTimecode] succeeds and [String] gives the text back, except that
    with drop frame the last separator becomes [;] and the text must not
    name a skipped drop-frame code. *)
Theorem timecode_roundtrip (base : Z) (drop : bool) (h m s f : Z) :
  supported_pair base drop ->
  0 <= h < 24 -> 0 <= m < 60 -> 0 <= s < 60 -> 0 <= f < base ->
  (drop = true -> ~ skipped_code m s f) ->
  exists t, NewTimecode (tc_text ":" h m s f) base drop = inr t
            /\ String_ t = tc_text (if drop then ";" else ":") h m s f.
Proof.
  intros Hpair Hh Hm Hs Hf Hskip.
  assert (base <= 30) by (destruct Hpair as [[-> _] | [[-> _] | [-> _]]]; lia).
  destruct (read_groups_tc_text ":" h m s f) as [Hlen Hgroups];
    [reflexivity | lia | lia | lia | lia |].
  unfold NewTimecode. rewrite Hlen, Hgroups.
  destruct Hpair as [[-> ->] | [[-> ->] | [-> ->]]];
    cbn [negb orb andb Z.eqb Pos.eqb Nat.eqb].
  - eexists; split; [reflexivity|].
    unfold String_. rewrite nondrop_fields; [|left; reflexivity | lia..].
    cbn [drop]. rewrite !pad2_dd by lia. reflexivity.
  - eexists; split; [reflexivity|].
    unfold String_. rewrite nondrop_fields; [|right; reflexivity | lia..].
    cbn [drop].
    rewrite !pad2_dd by lia. reflexivity.
  - eexists; split; [reflexivity|].
    unfold String_. rewrite drop_fields by (auto; lia). cbn [drop].
    rewrite !pad2_dd by lia. reflexivity.
Qed.

Lemma timecode_roundtrip_witness :
  supported_pair 30 true /\ 0 <= 20 < 24 /\ 0 <= 51 < 60 /\ 0 <= 1 < 60
  /\ 0 <= 20 < 30 /\ (true = true -> ~ skipped_code 51 1 20)
  /\ exists t, NewTimecode (tc_text ":" 20 51 1 20) 30 true = inr t
               /\ String_ t = tc_text ";" 20 51 1 20.
Proof.
  assert (Hns : true = true -> ~ skipped_code 51 1 20)
    by (intros _ [Hs _]; discriminate).
  refine (conj (or_intror (or_intror (conj eq_refl eq_refl))) _).
  split; [lia|]. split; [lia|]. split; [lia|]. split; [lia|].
  split; [exact Hns|].
  apply (timecode_roundtrip 30 true 20 51 1 20);
    [right; right; split; reflexivity | lia | lia | lia | lia | exact Hns].
Defined.

(** ** [NewTimecode]: validation and the drop flag *)

Lemma is_digit_range (c : ascii) : is_digit c = true -> 0 <= digit_val c <= 9.
Proof.
  unfold is_digit, digit_val. intros H.
  apply andb_true_iff in H as [H1 H2].
  apply Nat.leb_le in H1. apply Nat.leb_le in H2. lia.
Qed.

Lemma atoi_two (a c : ascii) :
  atoi (String a (String c EmptyString)) <> None
  <-> group_ok (String a (String c EmptyString)) = true.
Proof.
  unfold atoi, group_ok. cbn [digits_value].
  destruct (Ascii.eqb a "-") eqn:Em.
  - apply Ascii.eqb_eq in Em. subst a. cbn [digits_value].
    destruct (is_digit c) eqn:Hc.
    + apply is_digit_range in Hc.
      replace ((min_int <=? - (0 * 10 + digit_val c)) && (- (0 * 10 + digit_val c) <=? max_int))
        with true by (unfold min_int, max_int; symmetry; apply andb_true_iff; split; apply Z.leb_le; lia).
      rewrite orb_true_r. split; [reflexivity | discriminate].
    + rewrite andb_false_r. split; [intros H; exfalso; apply H; reflexivity | discriminate].
  - destruct (Ascii.eqb a "+") eqn:Ep.
    + apply Ascii.eqb_eq in Ep. subst a. cbn [digits_value].
      destruct (is_digit c) eqn:Hc.
      * apply is_digit_range in Hc.
        replace ((min_int <=? 0 * 10 + digit_val c) && (0 * 10 + digit_val c <=? max_int))
          with true by (unfold min_int, max_int; symmetry; apply andb_true_iff; split; apply Z.leb_le; lia).
        cbn. split; [reflexivity | discriminate].
      * rewrite andb_false_r. split; [intros H; exfalso; apply H; reflexivity | discriminate].
    + rewrite !orb_false_r. cbn [digits_value].
      destruct (is_digit a) eqn:Ha; [destruct (is_digit c) eqn:Hc|].
      * apply is_digit_range in Ha. apply is_digit_range in Hc.
        replace ((min_int <=? (0 * 10 + digit_val a) * 10 + digit_val c)
                 && ((0 * 10 + digit_val a) * 10 + digit_val c <=? max_int))
          with true by (unfold min_int, max_int; symmetry; apply andb_true_iff; split; apply Z.leb_le; lia).
        split; [reflexivity | discriminate].
      * split; [intros H; exfalso; apply H; reflexivity | discriminate].
      * split; [intros H; exfalso; apply H; reflexivity | discriminate].
Qed.

Lemma read_groups_ok (code : string) :
  String.length code = 11%nat ->
  read_groups code <> None
  <-> forallb group_ok [slice code 0 2; slice code 3 5; slice code 6 8;
                        slice code 9 11] = true.
Proof.
  intros Hlen.
  do 11 (destruct code as [|? code]; [discriminate|]).
  destruct code; [|discriminate].
  unfold read_groups, slice. cbn [substring Nat.sub].
  cbn [forallb]. rewrite !andb_true_iff, <- !atoi_two.
  destruct (atoi (String a (String a0 EmptyString))),
           (atoi (String a2 (String a3 EmptyString))),
           (atoi (String a5 (String a6 EmptyString))),
           (atoi (String a8 (String a9 EmptyString)));
    intuition discriminate.
Qed.

(** C6 (counterexample): the separators are never read, so a text with
    [x] in place of [:] is accepted. *)
Lemma NewTimecode_ignores_separators :
  spec_tc_pattern "00x00x00x00" = false
  /\ NewTimecode "00x00x00x00" 30 false = inr (mkTimecode 30 false 0).
Proof. vm_compute. split; reflexivity. Qed.

(** C6 (amended): for base 24 or 30, [NewTimecode code base drop]
    succeeds exactly when [code] has 11 bytes and each of the groups at
    positions 0-1, 3-4, 6-7 and 9-10 is two decimal digits or a sign
    ([+] or [-]) followed by one digit; the bytes at positions 2, 5 and 8
    are not looked at. Every failure is the invalid-timecode error. *)
Theorem NewTimecode_accepts (code : string) (base : Z) (drop : bool) :
  (base = 24 \/ base = 30) ->
  ((exists t, NewTimecode code base drop = inr t)
   <-> String.length code = 11%nat
       /\ forallb group_ok [slice code 0 2; slice code 3 5; slice code 6 8;
                            slice code 9 11] = true)
  /\ (forall e, NewTimecode code base drop = inl e -> e = ErrInvalidTimecode code).
Proof.
  intros Hb.
  assert (Hbase : negb ((base =? 24) || (base =? 30)) = false)
    by (destruct Hb as [-> | ->]; reflexivity).
  unfold NewTimecode. rewrite Hbase.
  destruct (Nat.eqb (String.length code) 11) eqn:Hl; cbn [negb].
  - apply Nat.eqb_eq in Hl. rewrite <- (read_groups_ok code Hl).
    destruct (read_groups code) as [[[[h m] s] f]|].
    + split; [split; [intros _; split; [exact Hl | discriminate] | intros _; eexists; reflexivity]|].
      intros e He; discriminate.
    + split; [split; [intros [t Ht]; discriminate | intros [_ H]; exfalso; apply H; reflexivity]|].
      intros e He; injection He; auto.
  - apply Nat.eqb_neq in Hl.
    split; [split; [intros [t Ht]; discriminate | intros [H _]; contradiction]|].
    intros e He; injection He; auto.
Qed.

Lemma NewTimecode_accepts_witness :
  (30 = 24 \/ 30 = 30)
  /\ (((exists t, NewTimecode "+1:02;03:04" 30 true = inr t)
       <-> String.length "+1:02;03:04" = 11%nat
           /\ forallb group_ok [slice "+1:02;03:04" 0 2; slice "+1:02;03:04" 3 5;
                                slice "+1:02;03:04" 6 8; slice "+1:02;03:04" 9 11] = true)
      /\ (forall e, NewTimecode "+1:02;03:04" 30 true = inl e
                    -> e = ErrInvalidTimecode "+1:02;03:04")).
Proof.
  split; [right; reflexivity|].
  apply (NewTimecode_accepts "+1:02;03:04" 30 true). right; reflexivity.
Defined.

Lemma Add_keeps_base_drop (ns : list Z) (t : Timecode) :
  base (fold_left Add ns t) = base t /\ drop (fold_left Add ns t) = drop t.
Proof.
  revert t. induction ns as [|n ns IH]; intros t; [auto|].
  cbn [fold_left]. destruct (IH (Add t n)) as [-> ->]. auto.
Qed.

(** C10: a timecode made by [NewTimecode] and moved by any number of
    [Add] calls is drop frame only with base 30; with base 24 a drop
    request is ignored: the result is the one of the non-drop call, a
    non-drop timecode, and a valid text is accepted. *)
Theorem drop_implies_base_30 :
  (forall code b d t ns, NewTimecode code b d = inr t ->
     drop (fold_left Add ns t) = true -> base (fold_left Add ns t) = 30)
  /\ (forall code, NewTimecode code 24 true = NewTimecode code 24 false)
  /\ (forall code t, NewTimecode code 24 true = inr t -> drop t = false)
  /\ NewTimecode "01:00:00:00" 24 true = inr (mkTimecode 24 false 86400).
Proof.
  split; [|split; [|split]].
  - intros code b d t ns Ht. destruct (Add_keeps_base_drop ns t) as [-> ->].
    unfold NewTimecode in Ht.
    destruct (negb ((b =? 24) || (b =? 30))) eqn:Hb; [discriminate|].
    destruct (negb (Nat.eqb (String.length code) 11)); [discriminate|].
    destruct (read_groups code) as [[[[h m] s] f]|]; [|discriminate].
    injection Ht as <-. cbn [drop base].
    destruct ((b =? 24) && d) eqn:Hbd; [discriminate|].
    intros ->. rewrite andb_true_r in Hbd.
    apply negb_false_iff, orb_true_iff in Hb.
    destruct Hb as [Hb | Hb]; apply Z.eqb_eq in Hb; subst; [discriminate | reflexivity].
  - intros code. reflexivity.
  - intros code t Ht. unfold NewTimecode in Ht. cbn [negb orb andb Z.eqb Pos.eqb] in Ht.
    destruct (negb (Nat.eqb (String.length code) 11)); [discriminate|].
    destruct (read_groups code) as [[[[h m] s] f]|]; [|discriminate].
    injection Ht as <-. reflexivity.
  - vm_compute. reflexivity.
Qed.

(** ** [String] with drop frame *)

Lemma digit_char_inj (a b : Z) :
  0 <= a <= 9 -> 0 <= b <= 9 -> digit_char a = digit_char b -> a = b.
Proof.
  unfold digit_char. intros Ha Hb H.
  apply (f_equal nat_of_ascii) in H.
  rewrite !Ascii.nat_ascii_embedding in H by lia. lia.
Qed.

Lemma dd_inj (a b : Z) : 0 <= a < 100 -> 0 <= b < 100 -> dd a = dd b -> a = b.
Proof.
  unfold dd. intros Ha Hb H. injection H as H1 H2.
  assert (forall z, 0 <= z < 100 -> 0 <= z / 10 <= 9 /\ 0 <= z mod 10 <= 9) as Hz.
  { intros z Hz. pose proof (Z.mod_pos_bound z 10). split; [|lia].
    split; [apply Z.div_pos; lia | apply Z.lt_succ_r, Z.div_lt_upper_bound; lia]. }
  destruct (Hz a Ha), (Hz b Hb).
  apply digit_char_inj in H1; [|assumption..].
  apply digit_char_inj in H2; [|assumption..].
  rewrite (Z.div_mod a 10), (Z.div_mod b 10) by lia. lia.
Qed.

(** The four fields of [String] on a non-negative count of [Tm] whole
    minutes and [off] frames, at 30 frames per second. *)
Lemma fields_of_minutes (Tm off : Z) :
  0 <= Tm -> 0 <= off < 1800 ->
  let x := 1800 * Tm + off in
  (Z.rem (Z.quot (Z.quot (Z.quot x 30) 60) 60) 24,
   Z.rem (Z.quot (Z.quot x 30) 60) 60, Z.rem (Z.quot x 30) 60, Z.rem x 30)
  = ((Tm / 60) mod 24, Tm mod 60, off / 30, off mod 30).
Proof.
  intros HTm Hoff x.
  pose proof (Z.mod_pos_bound Tm 60). pose proof (Z.mod_pos_bound off 30).
  assert (off / 30 < 60) by (apply Z.div_lt_upper_bound; lia).
  assert (0 <= off / 30) by (apply Z.div_pos; lia).
  assert (0 <= Tm / 60) by (apply Z.div_pos; lia).
  destruct (split_fields 30 (Tm / 60) (Tm mod 60) (off / 30) (off mod 30))
    as (E1 & E2 & E3 & E4); try lia.
  replace x with (30 * (60 * (60 * (Tm / 60) + Tm mod 60) + off / 30) + off mod 30).
  - rewrite E1, E2, E3, E4. reflexivity.
  - unfold x. rewrite (Z.div_mod Tm 60) at 3 by lia.
    rewrite (Z.div_mod off 30) at 3 by lia. ring.
Qed.

(** The shape of a drop-frame [String]: the restored count is [Tm] whole
    minutes plus [off] frames, and a minute that is not a multiple of
    ten never starts at frame 0 or 1. *)
Lemma drop_fields_shape (x : Z) :
  0 <= x <= 9000000000000000000 ->
  exists Tm off,
    tc_fields (mkTimecode 30 true x)
    = ((Tm / 60) mod 24, Tm mod 60, off / 30, off mod 30)
    /\ 0 <= Tm /\ 0 <= off < 1800 /\ (off < 2 -> Tm mod 10 = 0).
Proof.
  intros Hx. unfold tc_fields; cbn [base frame drop].
  rewrite (Z.quot_div_nonneg x 17982), (Z.rem_mod_nonneg x 17982) by lia.
  pose proof (Z.div_mod x 17982 ltac:(lia)) as Ex.
  pose proof (Z.mod_pos_bound x 17982 ltac:(lia)) as HM.
  assert (HD : 0 <= x / 17982) by (apply Z.div_pos; lia).
  assert (HD' : x / 17982 <= x) by (apply Z.div_le_upper_bound; lia).
  set (D := x / 17982) in *. set (M := x mod 17982) in *.
  destruct (Z_lt_le_dec M 2) as [Hlt | Hge].
  - replace (Z.quot (M - 2) 1798) with 0
      by (assert (M = 0 \/ M = 1) as [-> | ->] by lia; reflexivity).
    rewrite wrap64_small by (unfold min_int, max_int; lia).
    exists (10 * D), M.
    replace (x + (18 * D + 2 * 0)) with (1800 * (10 * D) + M) by lia.
    rewrite fields_of_minutes by lia.
    repeat split; try lia.
    intros _. rewrite Z.mul_comm, Z.mod_mul; lia.
  - rewrite (Z.quot_div_nonneg (M - 2) 1798) by lia.
    pose proof (Z.div_mod (M - 2) 1798 ltac:(lia)) as EM.
    pose proof (Z.mod_pos_bound (M - 2) 1798 ltac:(lia)) as He.
    assert (Hd : 0 <= (M - 2) / 1798 <= 9).
    { split; [apply Z.div_pos; lia|].
      apply Z.lt_succ_r, Z.div_lt_upper_bound; lia. }
    set (d := (M - 2) / 1798) in *. set (e := (M - 2) mod 1798) in *.
    rewrite wrap64_small by (unfold min_int, max_int; lia).
    exists (10 * D + d), (e + 2).
    replace (x + (18 * D + 2 * d)) with (1800 * (10 * D + d) + (e + 2)) by lia.
    rewrite fields_of_minutes by lia.
    repeat split; lia.
Qed.

(** C8 (counterexample): near the top of the 64-bit range the restored
    count [frame + 18 * D + 2 * d] wraps around to a negative number, and
    [String] prints seconds 00 and frames 00 in minute -31. The timecode
    is reached from [00:00:00:00] by one [Add]. *)
Lemma drop_skip_fails_on_overflow :
  (match NewTimecode "00:00:00:00" 30 true with
   | inr t => Add t 9214148664817921040
   | inl _ => mkTimecode 0 false 0
   end) = mkTimecode 30 true 9214148664817921040
  /\ tc_fields (mkTimecode 30 true 9214148664817921040) = (-16, -31, 0, 0)
  /\ String_ (mkTimecode 30 true 9214148664817921040) = "-16:-31:00;00"
  /\ ~ (forall t, base t = 30 -> drop t = true -> 0 <= frame t ->
        forall h m s f, tc_fields t = (h, m, s, f) ->
        pad2 s = "00" -> (pad2 f = "00" \/ pad2 f = "01") -> m mod 10 = 0).
Proof.
  split; [vm_compute; reflexivity|].
  split; [vm_compute; reflexivity|].
  split; [vm_compute; reflexivity|].
  intros H.
  specialize (H (mkTimecode 30 true 9214148664817921040) eq_refl eq_refl
                ltac:(cbn [frame]; lia) (-16) (-31) 0 0 ltac:(vm_compute; reflexivity)
                eq_refl (or_introl eq_refl)).
  discriminate H.
Qed.

(** C8 (amended): for drop frame with base 30 and a stored count from 0
    to 9 * 10^18 (where the restored count stays inside the 64-bit
    range), if the seconds field that [String] prints is 00 and the
    frame field is 00 or 01, then the minutes field is a multiple of
    ten. *)
Theorem drop_skip_invariant (t : Timecode) :
  base t = 30 -> drop t = true -> 0 <= frame t <= 9000000000000000000 ->
  forall h m s f, tc_fields t = (h, m, s, f) ->
  pad2 s = "00" -> (pad2 f = "00" \/ pad2 f = "01") -> m mod 10 = 0.
Proof.
  destruct t as [b d x]; cbn [base drop frame]. intros -> -> Hx h m s f Hf Hs Hff.
  destruct (drop_fields_shape x Hx) as (Tm & off & E & HTm & Hoff & Hstart).
  rewrite E in Hf. injection Hf as <- <- <- <-.
  pose proof (Z.mod_pos_bound Tm 60). pose proof (Z.mod_pos_bound off 30).
  assert (off / 30 < 60) by (apply Z.div_lt_upper_bound; lia).
  assert (0 <= off / 30) by (apply Z.div_pos; lia).
  rewrite pad2_dd in Hs by lia.
  change "00" with (dd 0) in Hs. apply dd_inj in Hs; [|lia|lia].
  assert (Hoff30 : off < 30).
  { rewrite (Z.div_mod off 30) by lia. lia. }
  rewrite (Z.mod_small off 30) in Hff by lia.
  rewrite pad2_dd in Hff by lia.
  change "00" with (dd 0) in Hff. change "01" with (dd 1) in Hff.
  assert (off < 2) by (destruct Hff as [Hff | Hff]; apply dd_inj in Hff; lia).
  specialize (Hstart ltac:(lia)).
  rewrite (Z.div_mod Tm 60) in Hstart by lia.
  replace (60 * (Tm / 60) + Tm mod 60) with (Tm mod 60 + (6 * (Tm / 60)) * 10)
    in Hstart by ring.
  rewrite Z.mod_add in Hstart by lia. exact Hstart.
Qed.

Lemma drop_skip_invariant_witness :
  base (mkTimecode 30 true 17982) = 30 /\ drop (mkTimecode 30 true 17982) = true
  /\ 0 <= frame (mkTimecode 30 true 17982) <= 9000000000000000000
  /\ tc_fields (mkTimecode 30 true 17982) = (0, 10, 0, 0)
  /\ pad2 0 = "00" /\ (pad2 0 = "00" \/ pad2 0 = "01") /\ 10 mod 10 = 0.
Proof.
  split; [reflexivity|]. split; [reflexivity|]. split; [cbn [frame]; lia|].
  split; [vm_compute; reflexivity|]. split; [reflexivity|].
  split; [left; reflexivity|].
  apply (drop_skip_invariant (mkTimecode 30 true 17982) eq_refl eq_refl
           ltac:(cbn [frame]; lia) 0 10 0 0 ltac:(vm_compute; reflexivity)
           eq_refl (or_introl eq_refl)).
Defined.

(** ** The field assembly *)

Ltac destruct_conds :=
  repeat match goal with
  | |- context [if ?c then _ else _] => destruct c
  | |- context [match ?c with inl _ => _ | inr _ => _ end] => destruct c
  end.

Lemma field_steps_only (title : string -> string) cfg fps b i step :
  nth_error (field_steps title cfg fps b) i = Some step -> only_field i step.
Proof.
  intros Hi r j Hj.
  do 7 (destruct i as [|i];
        [injection Hi as <-;
         unfold field_start, field_end, field_duration, field_fps,
           field_resolution, field_codec, field_colorspace;
         destruct_conds;
         destruct j as [|[|[|[|[|[|[|j]]]]]]]; cbn; congruence|]).
  cbn in Hi; destruct i; discriminate.
Qed.

Lemma field_steps_in_place (title : string -> string) cfg fps b i step :
  nth_error (field_steps title cfg fps b) i = Some step -> fails_in_place step.
Proof.
  intros Hi r r' e.
  do 7 (destruct i as [|i];
        [injection Hi as <-;
         unfold field_start, field_end, field_duration, field_fps,
           field_resolution, field_codec, field_colorspace;
         destruct_conds; intros H;
         unfold fail, skip, set_start, set_end, set_duration, set_fps,
           set_resolution, set_codec_field, set_colorspace_field in H;
         congruence|]).
  cbn in Hi; destruct i; discriminate.
Qed.

Lemma run_steps_app (l1 l2 : list M) (r : result) :
  run_steps (l1 ++ l2) r
  = match run_steps l1 r with
    | (r', None) => run_steps l2 r'
    | (r', Some e) => (r', Some e)
    end.
Proof.
  revert r. induction l1 as [|step l1 IH]; intros r; [reflexivity|].
  cbn [app run_steps fold_right]. unfold seq at 1 3.
  destruct (step r) as [r1 [e|]]; [reflexivity|].
  fold (run_steps (l1 ++ l2)). fold (run_steps l1). apply IH.
Qed.

(** A run of steps that write only their own fields, numbered from
    [off], leaves the other fields as they were. *)
Lemma run_steps_only (steps : list M) (off : nat) :
  (forall i step, nth_error steps i = Some step -> only_field (off + i) step) ->
  forall r j, (j < off \/ off + List.length steps <= j)%nat ->
  get_field j (fst (run_steps steps r)) = get_field j r.
Proof.
  revert off. induction steps as [|step steps IH]; intros off Hst r j Hj;
    [reflexivity|].
  cbn [run_steps fold_right]. unfold seq.
  assert (Hs : only_field off step)
    by (rewrite <- (Nat.add_0_r off); apply Hst; reflexivity).
  pose proof (Hs r j ltac:(cbn [List.length] in Hj; lia)) as E.
  destruct (step r) as [r1 [e|]]; cbn [fst] in *; [exact E|].
  rewrite <- E. fold (run_steps steps).
  apply (IH (S off)); [|cbn [List.length] in Hj; lia].
  intros i st Hi. replace (S off + i)%nat with (off + S i)%nat by lia.
  apply Hst. exact Hi.
Qed.

(** A failing run stops at its first failing step, and hands back the
    result built by the steps before it. *)
Lemma run_steps_error (steps : list M) (r res : result) (e : error) :
  (forall i step, nth_error steps i = Some step -> fails_in_place step) ->
  run_steps steps r = (res, Some e) ->
  exists k step, nth_error steps k = Some step
    /\ run_steps (firstn k steps) r = (res, None)
    /\ step res = (res, Some e).
Proof.
  revert r. induction steps as [|step steps IH]; intros r Hst Hrun;
    [discriminate|].
  cbn [run_steps fold_right] in Hrun. unfold seq in Hrun.
  destruct (step r) as [r1 [e1|]] eqn:Es.
  - injection Hrun as -> ->.
    pose proof (Hst 0%nat step eq_refl r res e Es) as ->.
    exists 0%nat, step. auto.
  - fold (run_steps steps) in Hrun.
    destruct (IH r1) as (k & st & Hk & Hpre & Hst'); auto.
    { intros i s' Hi. apply (Hst (S i)). exact Hi. }
    exists (S k), st. split; [exact Hk|]. split; [|exact Hst'].
    cbn [firstn run_steps fold_right]. unfold seq. rewrite Es. exact Hpre.
Qed.

Lemma nth_error_firstn_some {A} (l : list A) (k i : nat) (x : A) :
  nth_error (firstn k l) i = Some x -> nth_error l i = Some x.
Proof.
  revert l i. induction k as [|k IH]; intros l i H; [destruct i; discriminate|].
  destruct l as [|y l]; [destruct i; discriminate|].
  destruct i as [|i]; [exact H|]. cbn in *. apply IH. exact H.
Qed.

Lemma get_field_empty (j : nat) : get_field j empty_result = "".
Proof. do 7 (destruct j as [|j]; [reflexivity|]). reflexivity. Qed.

(** C4 (counterexample): [return res, err] hands back the fields
    computed so far; here [start] is filled in when [resolution] fails. *)
Lemma parse_error_keeps_start :
  parse title_lower_ascii report_no_width cfg_start_resolution
  = Some (mkResult "01:00:00:00" "" "" "" "" "" "", Some ErrMissingWidth).
Proof. vm_compute. reflexivity. Qed.

(** C4 (amended): when [parse] returns an error, either the extraction
    failed and every field of the result is empty, or the assembly
    failed at some field of the order start, end, duration, fps,
    resolution, codec, colorspace: every field before it succeeded, the
    error is the one of that field, the result holds the values the
    earlier fields computed, and that field and the later ones are
    empty. *)
Theorem parse_error_keeps_earlier_fields
    (title : string -> string) (data : string) (cfg : config)
    (res : result) (e : error) :
  parse title data cfg = Some (res, Some e) ->
  (extract data = OErr e /\ res = empty_result)
  \/ (exists fps b k step,
        extract data = OOk (fps, b)
        /\ nth_error (field_steps title cfg fps b) k = Some step
        /\ run_steps (firstn k (field_steps title cfg fps b)) empty_result
           = (res, None)
        /\ step res = (res, Some e)
        /\ (forall j, (k <= j)%nat -> get_field j res = "")).
Proof.
  unfold parse. intros H.
  destruct (extract data) as [| e' | [fps b]] eqn:Ex; [discriminate | |].
  - injection H as -> ->. left. auto.
  - injection H as H. right.
    destruct (run_steps_error (field_steps title cfg fps b) empty_result res e)
      as (k & step & Hk & Hpre & Hstep).
    { intros i st Hi. exact (field_steps_in_place title cfg fps b i st Hi). }
    { exact H. }
    exists fps, b, k, step. repeat split; auto.
    intros j Hj.
    rewrite <- (get_field_empty j).
    replace res with (fst (run_steps (firstn k (field_steps title cfg fps b))
                             empty_result)) by (rewrite Hpre; reflexivity).
    apply (run_steps_only _ 0).
    + intros i st Hi. apply nth_error_firstn_some in Hi.
      exact (field_steps_only title cfg fps b i st Hi).
    + right. pose proof (firstn_le_length k (field_steps title cfg fps b)). lia.
Qed.

Lemma parse_error_keeps_earlier_fields_witness :
  parse title_lower_ascii report_no_width cfg_start_resolution
  = Some (mkResult "01:00:00:00" "" "" "" "" "" "", Some ErrMissingWidth)
  /\ ((extract report_no_width = OErr ErrMissingWidth
       /\ mkResult "01:00:00:00" "" "" "" "" "" "" = empty_result)
      \/ (exists fps b k step,
            extract report_no_width = OOk (fps, b)
            /\ nth_error (field_steps title_lower_ascii cfg_start_resolution fps b) k
               = Some step
            /\ run_steps (firstn k (field_steps title_lower_ascii
                                      cfg_start_resolution fps b)) empty_result
               = (mkResult "01:00:00:00" "" "" "" "" "" "", None)
            /\ step (mkResult "01:00:00:00" "" "" "" "" "" "")
               = (mkResult "01:00:00:00" "" "" "" "" "" "", Some ErrMissingWidth)
            /\ (forall j, (k <= j)%nat ->
                  get_field j (mkResult "01:00:00:00" "" "" "" "" "" "") = ""))).
Proof.
  assert (H : parse title_lower_ascii report_no_width cfg_start_resolution
              = Some (mkResult "01:00:00:00" "" "" "" "" "" "", Some ErrMissingWidth))
    by (vm_compute; reflexivity).
  split; [exact H|].
  exact (parse_error_keeps_earlier_fields title_lower_ascii report_no_width
           cfg_start_resolution _ _ H).
Defined.

(** ** The extraction *)

Lemma atoi_range (s : string) (n : Z) :
  atoi s = Some n -> min_int <= n <= max_int.
Proof.
  unfold atoi. destruct (match s with
                         | String c rest => _
                         | EmptyString => _ end) as [neg body].
  destruct body as [|c body]; [discriminate|].
  destruct (digits_value (String c body) 0) as [v|]; [|discriminate].
  destruct ((min_int <=? (if neg then - v else v))
            && ((if neg then - v else v) <=? max_int)) eqn:Hr; [|discriminate].
  intros H. injection H as <-.
  apply andb_true_iff in Hr as [H1 H2]. apply Z.leb_le in H1, H2. lia.
Qed.

Lemma scan_line_frames (l : string) (b b' : block) :
  min_int <= frames b <= max_int -> scan_line l b = inr b' ->
  min_int <= frames b' <= max_int.
Proof.
  intros Hb. unfold scan_line.
  destruct (has_prefix l "nb_frames=" && (frames b =? 0)).
  - destruct (atoi (trim_prefix l "nb_frames=")) as [n|] eqn:Ha; [|discriminate].
    apply atoi_range in Ha.
    unfold first_seen.
    repeat match goal with |- context [if ?c then _ else _] => destruct c end;
      intros H; try discriminate; injection H as <-; exact Ha.
  - unfold first_seen.
    repeat match goal with |- context [if ?c then _ else _] => destruct c end;
      intros H; try discriminate; injection H as <-; exact Hb.
Qed.

Lemma scan_block_frames (fps : string) (lines : list string) (b b' : block) :
  min_int <= frames b <= max_int -> scan_block fps lines b = inr b' ->
  min_int <= frames b' <= max_int.
Proof.
  revert b. induction lines as [|l ls IH]; intros b Hb H; cbn in H.
  - injection H as <-. exact Hb.
  - destruct (scan_done fps b); [injection H as <-; exact Hb|].
    destruct (scan_line l b) as [e|b1] eqn:Hl; [discriminate|].
    apply (IH b1); [exact (scan_line_frames l b b1 Hb Hl) | exact H].
Qed.

Lemma extract_scan (data fps : string) (b : block) :
  extract data = OOk (fps, b) ->
  exists lines, scan_block fps lines block0 = inr b.
Proof.
  unfold extract.
  destruct (Index data "[STREAM]") as [idx|]; [|discriminate].
  destruct (scan_overview _ "" (-1)) as [| e | [fps' videoIdx]]; try discriminate.
  destruct (videoIdx =? -1); [discriminate|].
  destruct (videoIdx >=? _); [discriminate|].
  destruct (videoIdx <? 0); [discriminate|].
  destruct (nth_error _ _) as [videoStream|]; [|discriminate].
  destruct (scan_block fps' (SplitLines videoStream) block0) as [e|b1] eqn:Hs;
    [discriminate|].
  intros H. injection H as <- <-. eexists. exact Hs.
Qed.

Lemma extract_frames_range (data fps : string) (b : block) :
  extract data = OOk (fps, b) -> min_int <= frames b <= max_int.
Proof.
  intros H. destruct (extract_scan data fps b H) as [lines Hs].
  apply (scan_block_frames fps lines block0); [cbn; unfold min_int, max_int; lia | exact Hs].
Qed.

Lemma NewTimecode_length (code : string) (base : Z) (drop : bool) (t : Timecode) :
  NewTimecode code base drop = inr t -> String.length code = 11%nat.
Proof.
  unfold NewTimecode.
  destruct (negb ((base =? 24) || (base =? 30))); [discriminate|].
  destruct (Nat.eqb (String.length code) 11) eqn:Hl; [|discriminate].
  intros _. apply Nat.eqb_eq. exact Hl.
Qed.

(** The assembly as the source runs it: start, end, then the rest. *)
Lemma run_field_steps (title : string -> string) cfg fps b r :
  run_steps (field_steps title cfg fps b) r
  = seq (field_start cfg b)
      (seq (field_end cfg fps b)
         (run_steps [field_duration cfg b; field_fps cfg fps;
                     field_resolution cfg b; field_codec title cfg b;
                     field_colorspace cfg b])) r.
Proof. reflexivity. Qed.

(** The steps after [end] leave [start] and [end] alone. *)
Lemma rest_keeps_start_end (title : string -> string) cfg fps b r j :
  (j < 2)%nat ->
  get_field j (fst (run_steps [field_duration cfg b; field_fps cfg fps;
                               field_resolution cfg b; field_codec title cfg b;
                               field_colorspace cfg b] r)) = get_field j r.
Proof.
  intros Hj. apply (run_steps_only _ 2); [|left; exact Hj].
  intros i st Hi.
  exact (field_steps_only title cfg fps b (2 + i) st Hi).
Qed.

(** C2: when the extraction yields a supported fps, a frame count
    [n >= 1] and a timecode tag that [NewTimecode] reads with base 30
    for ["30"] and ["29.97"] (24 otherwise) and drop frame exactly for
    ["29.97"], a request for [end] makes [parse] return [res.end] equal
    to [String] of that timecode after [Add (n - 1)]. *)
Theorem end_field (title : string -> string) (data : string) (cfg : config)
    (fps : string) (b : block) (t : Timecode) :
  extract data = OOk (fps, b) ->
  cfg_end cfg = true ->
  In fps ["30"; "29.97"; "24"; "23.98"; "23.976"] ->
  1 <= frames b ->
  NewTimecode (timecode b)
    (if String.eqb fps "30" || String.eqb fps "29.97" then 30 else 24)
    (String.eqb fps "29.97") = inr t ->
  exists res err, parse title data cfg = Some (res, err)
                  /\ res_end res = String_ (Add t (frames b - 1)).
Proof.
  intros Hex Hend Hfps Hn Ht.
  pose proof (extract_frames_range data fps b Hex) as Hrange.
  pose proof (NewTimecode_length _ _ _ _ Ht) as Hlen.
  assert (Htc : String.eqb (timecode b) "" = false).
  { apply String.eqb_neq. intros E. rewrite E in Hlen. discriminate. }
  assert (Hsup : supported_fps fps = true /\ String.eqb fps "" = false).
  { unfold supported_fps.
    destruct Hfps as [<- | [<- | [<- | [<- | [<- | []]]]]]; split; reflexivity. }
  destruct Hsup as [Hsup Hne].
  unfold parse. rewrite Hex, run_field_steps.
  set (rest := run_steps [field_duration cfg b; field_fps cfg fps;
                          field_resolution cfg b; field_codec title cfg b;
                          field_colorspace cfg b]).
  assert (Hstart : exists r1, field_start cfg b empty_result = (r1, None)).
  { unfold field_start. rewrite Htc.
    destruct (cfg_start cfg); eexists; reflexivity. }
  destruct Hstart as [r1 Hr1].
  assert (Hend' : field_end cfg fps b r1
                  = set_end (String_ (Add t (frames b - 1))) r1).
  { unfold field_end. rewrite Hend, Htc, Hne, Hsup.
    replace (frames b =? 0) with false by (symmetry; apply Z.eqb_neq; lia).
    cbn [negb]. unfold fps_base, fps_drop. rewrite Ht.
    rewrite (wrap64_small (frames b - 1)) by (unfold min_int, max_int in *; lia).
    reflexivity. }
  unfold seq. rewrite Hr1, Hend'.
  exists (fst (rest (fst (set_end (String_ (Add t (frames b - 1))) r1)))),
         (snd (rest (fst (set_end (String_ (Add t (frames b - 1))) r1)))).
  split; [cbn [set_end fst]; destruct (rest _); reflexivity|].
  change (res_end (fst (rest (fst (set_end (String_ (Add t (frames b - 1))) r1)))))
    with (get_field 1 (fst (rest (fst (set_end (String_ (Add t (frames b - 1))) r1))))).
  unfold rest. rewrite rest_keeps_start_end by lia. reflexivity.
Qed.

Lemma end_field_witness :
  exists b t,
    extract report_A = OOk ("29.97", b)
    /\ NewTimecode (timecode b) 30 true = inr t
    /\ NewTimecode "00:00:00:00" 30 true = inr t
    /\ frames b = 102
    /\ exists res err, parse title_lower_ascii report_A all_fields = Some (res, err)
                       /\ res_end res = String_ (Add t (frames b - 1)).
Proof.
  set (b := mkBlock 102 "1920" "1080" "00:00:00:00" "prores" "HQ"
                    "yuv422p10le" "bt709").
  assert (Hex : extract report_A = OOk ("29.97", b)) by (vm_compute; reflexivity).
  exists b, (mkTimecode 30 true 0).
  split; [exact Hex|]. split; [vm_compute; reflexivity|].
  split; [vm_compute; reflexivity|]. split; [reflexivity|].
  apply (end_field title_lower_ascii report_A all_fields "29.97" b
           (mkTimecode 30 true 0) Hex eq_refl).
  - right; left; reflexivity.
  - cbn [frames b]; lia.
  - vm_compute; reflexivity.
Defined.

(** C9 (counterexample): only a zero count counts as missing; a
    negative [nb_frames] is printed as the duration. *)
Lemma duration_negative_frames :
  parse title_lower_ascii report_negative_frames cfg_duration_only
  = Some (mkResult "" "" "-5" "" "" "" "", None).
Proof. vm_compute. reflexivity. Qed.

(** C9 (amended): when the extraction succeeds, [duration] is requested
    and the requested [start] and [end] fields succeed, [parse] fails
    with the missing-nb_frames error exactly when the recorded frame
    count is 0 (no [nb_frames=] line was read before the scan stopped,
    or each one read was 0); otherwise, negative counts included,
    [res.duration] is the decimal string of the count. *)
Theorem duration_field (title : string -> string) (data : string)
    (cfg : config) (fps : string) (b : block) (r0 : result) :
  extract data = OOk (fps, b) ->
  cfg_duration cfg = true ->
  run_steps [field_start cfg b; field_end cfg fps b] empty_result = (r0, None) ->
  (frames b = 0 -> parse title data cfg = Some (r0, Some ErrMissingFrames))
  /\ (frames b <> 0 ->
      exists res err, parse title data cfg = Some (res, err)
                      /\ res_duration res = itoa (frames b)).
Proof.
  intros Hex Hdur Hpre.
  unfold parse. rewrite Hex.
  set (rest := [field_fps cfg fps; field_resolution cfg b;
                field_codec title cfg b; field_colorspace cfg b]).
  change (field_steps title cfg fps b)
    with (app [field_start cfg b; field_end cfg fps b] (field_duration cfg b :: rest)).
  rewrite run_steps_app, Hpre.
  change (run_steps (field_duration cfg b :: rest) r0)
    with (match field_duration cfg b r0 with
          | (r', None) => run_steps rest r'
          | (r', Some e) => (r', Some e)
          end).
  unfold field_duration. rewrite Hdur.
  split.
  - intros H0. rewrite H0. reflexivity.
  - intros H0. replace (frames b =? 0) with false by (symmetry; apply Z.eqb_neq; exact H0).
    unfold set_duration.
    set (r3 := mkResult (res_start r0) (res_end r0) (itoa (frames b)) (res_fps r0)
                 (res_resolution r0) (res_codec r0) (res_colorspace r0)).
    exists (fst (run_steps rest r3)), (snd (run_steps rest r3)).
    split; [destruct (run_steps rest r3); reflexivity|].
    change (res_duration (fst (run_steps rest r3)))
      with (get_field 2 (fst (run_steps rest r3))).
    rewrite (run_steps_only _ 3); [reflexivity | | left; lia].
    intros i st Hi.
    exact (field_steps_only title cfg fps b (3 + i) st Hi).
Qed.

Lemma duration_field_witness :
  exists b,
    extract report_negative_frames = OOk ("29.97", b)
    /\ frames b = -5
    /\ ((frames b = 0 -> parse title_lower_ascii report_negative_frames
                           cfg_duration_only = Some (empty_result, Some ErrMissingFrames))
        /\ (frames b <> 0 ->
            exists res err, parse title_lower_ascii report_negative_frames
                              cfg_duration_only = Some (res, err)
                            /\ res_duration res = itoa (frames b))).
Proof.
  set (b := mkBlock (-5) "" "" "" "" "" "" "").
  assert (Hex : extract report_negative_frames = OOk ("29.97", b))
    by (vm_compute; reflexivity).
  exists b. split; [exact Hex|]. split; [reflexivity|].
  apply (duration_field title_lower_ascii report_negative_frames cfg_duration_only
           "29.97" b empty_result Hex eq_refl).
  vm_compute. reflexivity.
Defined.

Lemma kept_refl (b : block) : kept b b.
Proof. unfold kept; repeat split; auto. Qed.

Lemma kept_trans (b1 b2 b3 : block) : kept b1 b2 -> kept b2 b3 -> kept b1 b3.
Proof.
  unfold kept. intros (A1 & A2 & A3 & A4 & A5 & A6 & A7)
                      (B1 & B2 & B3 & B4 & B5 & B6 & B7).
  repeat split; intros H;
    [ rewrite B1, A1 | rewrite B2, A2 | rewrite B3, A3 | rewrite B4, A4
    | rewrite B5, A5 | rewrite B6, A6 | rewrite B7, A7 ];
    auto; try (rewrite A1 by exact H); try (rewrite A2 by exact H);
    try (rewrite A3 by exact H); try (rewrite A4 by exact H);
    try (rewrite A5 by exact H); try (rewrite A6 by exact H);
    try (rewrite A7 by exact H); exact H.
Qed.

Ltac kept_first_seen :=
  intros l b; unfold first_seen;
  match goal with
  | |- context [if ?c then _ else _] =>
      let E := fresh "E" in
      destruct c eqn:E; [|apply kept_refl];
      apply andb_true_iff in E; destruct E as [_ E]; apply String.eqb_eq in E;
      unfold kept; cbn; repeat split; intros; congruence
  end.

Lemma kept_width : forall l b, kept b (first_seen l "width=" width set_width b).
Proof. kept_first_seen. Qed.
Lemma kept_height : forall l b, kept b (first_seen l "height=" height set_height b).
Proof. kept_first_seen. Qed.
Lemma kept_codec : forall l b, kept b (first_seen l "codec_name=" codec set_codec b).
Proof. kept_first_seen. Qed.
Lemma kept_codec_profile :
  forall l b, kept b (first_seen l "profile=" codec_profile set_codec_profile b).
Proof. kept_first_seen. Qed.
Lemma kept_pix_fmt : forall l b, kept b (first_seen l "pix_fmt=" pix_fmt set_pix_fmt b).
Proof. kept_first_seen. Qed.
Lemma kept_colorspace :
  forall l b, kept b (first_seen l "color_space=" colorspace set_colorspace b).
Proof. kept_first_seen. Qed.

Lemma kept_set_timecode (b : block) (v : string) : kept b (set_timecode b v).
Proof. unfold kept; cbn; repeat split; auto. Qed.

Lemma scan_line_kept (l : string) (b b' : block) :
  scan_line l b = inr b' -> kept b b'.
Proof.
  unfold scan_line. cbv zeta. intros H.
  destruct (if has_prefix l "nb_frames=" && (frames b =? 0) then _ else inr b)
    as [e|b1] eqn:Enb; [discriminate|].
  assert (K1 : kept b b1).
  { destruct (has_prefix l "nb_frames=" && (frames b =? 0)) eqn:E1.
    - apply andb_true_iff in E1. destruct E1 as [_ E1]. apply Z.eqb_eq in E1.
      destruct (atoi _) as [n|]; [|discriminate].
      injection Enb as <-. unfold kept; cbn; repeat split; intros; congruence.
    - injection Enb as <-. apply kept_refl. }
  apply (kept_trans _ _ _ K1).
  set (B := first_seen l "color_space=" colorspace set_colorspace
             (first_seen l "pix_fmt=" pix_fmt set_pix_fmt
               (first_seen l "profile=" codec_profile set_codec_profile
                 (first_seen l "codec_name=" codec set_codec
                   (first_seen l "height=" height set_height
                     (first_seen l "width=" width set_width b1)))))) in H.
  apply (kept_trans _ B).
  - eapply kept_trans; [apply kept_width|].
    eapply kept_trans; [apply kept_height|].
    eapply kept_trans; [apply kept_codec|].
    eapply kept_trans; [apply kept_codec_profile|].
    eapply kept_trans; [apply kept_pix_fmt|].
    apply kept_colorspace.
  - destruct (has_prefix l "TAG:timecode=").
    + destruct (negb _); [discriminate|].
      injection H as <-. apply kept_set_timecode.
    + injection H as <-. apply kept_refl.
Qed.

Lemma scan_block_kept (fps : string) (lines : list string) (b b' : block) :
  scan_block fps lines b = inr b' -> kept b b'.
Proof.
  revert b. induction lines as [|l ls IH]; intros b H; cbn in H.
  - injection H as <-. apply kept_refl.
  - destruct (scan_done fps b); [injection H as <-; apply kept_refl|].
    destruct (scan_line l b) as [e|b1] eqn:Hl; [discriminate|].
    exact (kept_trans _ _ _ (scan_line_kept l b b1 Hl) (IH b1 H)).
Qed.

(** Once the early-exit test holds, the block loop reads no more lines. *)
Lemma scan_done_stops (fps : string) (lines : list string) (b : block) :
  scan_done fps b = true -> scan_block fps lines b = inr b.
Proof. intros H. destruct lines; cbn; [reflexivity|]. rewrite H. reflexivity. Qed.

(** [s[:n]] for [n] at least the length of [s] is [s]. *)
Lemma substring_0_all (v : string) (n : nat) :
  (String.length v <= n)%nat -> substring 0 n v = v.
Proof.
  revert n. induction v as [|c v IH]; intros n Hn; destruct n; cbn in *;
    try reflexivity; try lia.
  f_equal. apply IH. lia.
Qed.

(** A valid [TAG:timecode=] line sets the timecode, whatever the block
    already holds. *)
Lemma scan_line_timecode (v : string) (b : block) :
  String.length v = 11%nat ->
  scan_line ("TAG:timecode=" ++ v) b = inr (set_timecode b v).
Proof.
  intros Hv. unfold scan_line, first_seen, has_prefix, trim_prefix. cbn.
  replace (String.prefix "" v) with true by (destruct v; reflexivity).
  rewrite substring_0_all by lia. rewrite Hv. reflexivity.
Qed.

(** Lines after the point where the early-exit test holds are never
    read. *)
Lemma scan_block_app_done (fps : string) (pre post : list string) (b0 b : block) :
  scan_block fps pre b0 = inr b -> scan_done fps b = true ->
  scan_block fps (pre ++ post)%list b0 = inr b.
Proof.
  revert b0. induction pre as [|l ls IH]; intros b0 H Hd; cbn in H |- *.
  - injection H as ->. exact (scan_done_stops fps post b Hd).
  - destruct (scan_done fps b0); [exact H|].
    destruct (scan_line l b0) as [e|b1]; [discriminate|]. exact (IH b1 H Hd).
Qed.

(** C3 (code bug): [TAG:timecode=] has no first-seen guard, unlike the
    other block keys. A valid tag line sets the timecode whatever the block
    already holds, so in a video block with two tags the second one is
    recorded, and [parse] returns it as the start timecode. *)
Theorem timecode_last_one_wins :
  (forall v b, String.length v = 11%nat ->
     scan_line ("TAG:timecode=" ++ v) b = inr (set_timecode b v))
  /\ (exists idx videoStream,
        Index report_dup_timecode "[STREAM]" = Some idx
        /\ scan_overview (SplitLines (substring 0 idx report_dup_timecode)) "" (-1)
           = OOk ("29.97", 0)
        /\ nth_error (SplitAfter (substring idx (String.length report_dup_timecode - idx)
                                    report_dup_timecode) "[/STREAM]") 0
           = Some videoStream
        /\ SplitLines videoStream
           = ["[STREAM]"; "TAG:timecode=01:00:00:00"; "TAG:timecode=02:00:00:00";
              "[/STREAM]"])
  /\ extract report_dup_timecode
     = OOk ("29.97", mkBlock 0 "" "" "02:00:00:00" "" "" "" "")
  /\ forall title,
       parse title report_dup_timecode (mkConfig true false false false false false false)
       = Some (mkResult "02:00:00:00" "" "" "" "" "" "", None).
Proof.
  refine (conj scan_line_timecode (conj _ (conj _ _))).
  - exists 134%nat, ("[STREAM]" ++ nl ++ "TAG:timecode=01:00:00:00" ++ nl
                     ++ "TAG:timecode=02:00:00:00" ++ nl ++ "[/STREAM]").
    refine (conj _ (conj _ (conj _ _))); vm_compute; reflexivity.
  - vm_compute. reflexivity.
  - intros title. unfold parse.
    replace (extract report_dup_timecode)
      with (OOk ("29.97", mkBlock 0 "" "" "02:00:00:00" "" "" "" ""))
      by (vm_compute; reflexivity).
    vm_compute. reflexivity.
Qed.

(** From any point of the block loop on (state [b]) to the end of the
    loop (state [b']), a non-zero frame count and any non-empty value of
    [width], [height], [codec_name], [profile], [pix_fmt] or [color_space]
    already recorded is never changed. *)
Theorem recorded_fields_stable (fps : string) (lines : list string)
    (b b' : block) :
  scan_block fps lines b = inr b' ->
  (frames b <> 0 -> frames b' = frames b)
  /\ (width b <> "" -> width b' = width b)
  /\ (height b <> "" -> height b' = height b)
  /\ (codec b <> "" -> codec b' = codec b)
  /\ (codec_profile b <> "" -> codec_profile b' = codec_profile b)
  /\ (pix_fmt b <> "" -> pix_fmt b' = pix_fmt b)
  /\ (colorspace b <> "" -> colorspace b' = colorspace b).
Proof. exact (scan_block_kept fps lines b b'). Qed.

Lemma recorded_fields_stable_witness :
  scan_block "" ["width=1920"; "width=1280"; "nb_frames=5"; "nb_frames=7"]
    block0 = inr (mkBlock 5 "1920" "" "" "" "" "" "")
  /\ scan_block "" ["width=1280"; "nb_frames=7"]
       (mkBlock 5 "1920" "" "" "" "" "" "")
     = inr (mkBlock 5 "1920" "" "" "" "" "" "")
  /\ (5 <> 0 -> 5 = 5) /\ ("1920" <> "" -> "1920" = "1920").
Proof.
  split; [vm_compute; reflexivity|].
  assert (H : scan_block "" ["width=1280"; "nb_frames=7"]
                (mkBlock 5 "1920" "" "" "" "" "" "")
              = inr (mkBlock 5 "1920" "" "" "" "" "" ""))
    by (vm_compute; reflexivity).
  split; [exact H|].
  destruct (recorded_fields_stable "" ["width=1280"; "nb_frames=7"] _ _ H)
    as (H1 & H2 & _).
  split; [exact H1 | exact H2].
Defined.

(** C5: an overview line [Stream #0:0] has only two fields, so
    [flds[2]] is out of range and [parse] panics (modelled as [None])
    for every config. *)
Theorem parse_short_stream_line_panics (title : string -> string) (cfg : config) :
  parse title report_short_stream_line cfg = None.
Proof.
  unfold parse.
  replace (extract report_short_stream_line) with (@OPanic (string * block))
    by (vm_compute; reflexivity).
  reflexivity.
Qed.

(** C7: the block loop stops as soon as fps, the timecode and the frame
    count are all set, so no line after that point is read. In the video
    block of the sample report, [width=] and [height=] come after that
    point: they are never read and a resolution request fails with the
    missing-width error. *)
Theorem early_exit_drops_resolution :
  (forall fps pre post b0 b,
     scan_block fps pre b0 = inr b -> scan_done fps b = true ->
     scan_block fps (pre ++ post)%list b0 = inr b)
  /\ exists (data : string) (idx : nat) (fps : string) (vidx : Z)
      (videoStream : string) (pre post : list string) (b : block),
    Index data "[STREAM]" = Some idx
    /\ scan_overview (SplitLines (substring 0 idx data)) "" (-1) = OOk (fps, vidx)
    /\ nth_error (SplitAfter (substring idx (String.length data - idx) data) "[/STREAM]")
                 (Z.to_nat vidx) = Some videoStream
    /\ SplitLines videoStream = (pre ++ post)%list
    /\ scan_block fps pre block0 = inr b
    /\ scan_done fps b = true
    /\ In "width=1920" post /\ In "height=1080" post
    /\ extract data = OOk (fps, b)
    /\ width b = "" /\ height b = ""
    /\ forall title, parse title data cfg_resolution_only
                     = Some (empty_result, Some ErrMissingWidth).
Proof.
  split; [exact scan_block_app_done|].
  exists report_late_width, 134%nat, "29.97", 0,
    ("[STREAM]" ++ nl ++ "nb_frames=102" ++ nl ++ "TAG:timecode=00:00:00:00" ++ nl
     ++ "width=1920" ++ nl ++ "height=1080" ++ nl ++ "[/STREAM]"),
    ["[STREAM]"; "nb_frames=102"; "TAG:timecode=00:00:00:00"],
    ["width=1920"; "height=1080"; "[/STREAM]"],
    (mkBlock 102 "" "" "00:00:00:00" "" "" "" "").
  do 10 (split; [vm_compute; first [reflexivity | tauto]|]).
  split; [reflexivity|].
  intros title. unfold parse.
  replace (extract report_late_width)
    with (OOk ("29.97", mkBlock 102 "" "" "00:00:00:00" "" "" "" ""))
    by (vm_compute; reflexivity).
  vm_compute. reflexivity.
Qed.

(* ------------------------------------------------------------------ *)
(** * Further properties of the program *)

(** Wrapping the left operand of a sum first does not change the wrapped
    sum. *)
Lemma wrap64_add_l (x y : Z) : wrap64 (wrap64 x + y) = wrap64 (x + y).
Proof.
  unfold wrap64.
  replace ((x + 2 ^ 63) mod 2 ^ 64 - 2 ^ 63 + y + 2 ^ 63)
    with ((x + 2 ^ 63) mod 2 ^ 64 + y) by ring.
  rewrite Z.add_mod_idemp_l by lia. f_equal. f_equal. ring.
Qed.

(** Wrapping the right operand of a sum first does not change the wrapped
    sum. *)
Lemma wrap64_add_r (x y : Z) : wrap64 (x + wrap64 y) = wrap64 (x + y).
Proof.
  rewrite (Z.add_comm x), wrap64_add_l. f_equal. ring.
Qed.

(** [Add] composes: adding [a] then [b] frames is adding their sum,
    wrapped to 64 bits, once. *)
Theorem Add_Add (t : Timecode) (a b : Z) :
  Add (Add t a) b = Add t (wrap64 (a + b)).
Proof.
  unfold Add; cbn [base drop frame]. f_equal.
  rewrite wrap64_add_l, wrap64_add_r. f_equal. ring.
Qed.

(** The four fields of [String] on a non-negative count [x] at base [b],
    written with floor division. *)
Lemma tc_nonneg_fields (b x : Z) :
  0 < b -> 0 <= x ->
  (Z.rem (Z.quot (Z.quot (Z.quot x b) 60) 60) 24,
   Z.rem (Z.quot (Z.quot x b) 60) 60, Z.rem (Z.quot x b) 60, Z.rem x b)
  = ((x / b / 60 / 60) mod 24, (x / b / 60) mod 60, (x / b) mod 60, x mod b).
Proof.
  intros Hb Hx.
  assert (0 <= x / b) by (apply Z.div_pos; lia).
  assert (0 <= x / b / 60) by (apply Z.div_pos; lia).
  assert (0 <= x / b / 60 / 60) by (apply Z.div_pos; lia).
  rewrite (Z.quot_div_nonneg x b) by lia.
  rewrite (Z.quot_div_nonneg (x / b) 60) by lia.
  rewrite (Z.quot_div_nonneg (x / b / 60) 60) by lia.
  rewrite !Z.rem_mod_nonneg by lia. reflexivity.
Qed.

(** One day later, [String] shows the same fields. *)
Lemma fields_day (b x : Z) :
  0 < b -> 0 <= x ->
  let y := x + 86400 * b in
  (Z.rem (Z.quot (Z.quot (Z.quot y b) 60) 60) 24,
   Z.rem (Z.quot (Z.quot y b) 60) 60, Z.rem (Z.quot y b) 60, Z.rem y b)
  = (Z.rem (Z.quot (Z.quot (Z.quot x b) 60) 60) 24,
     Z.rem (Z.quot (Z.quot x b) 60) 60, Z.rem (Z.quot x b) 60, Z.rem x b).
Proof.
  intros Hb Hx y. unfold y.
  rewrite !tc_nonneg_fields by lia.
  rewrite Z.div_add by lia.
  replace (x / b + 86400) with (x / b + 1440 * 60) by ring.
  rewrite Z.div_add by lia.
  replace (x / b / 60 + 1440) with (x / b / 60 + 24 * 60) by ring.
  rewrite Z.div_add by lia.
  replace (x / b / 60 / 60 + 24) with (x / b / 60 / 60 + 1 * 24) by ring.
  rewrite !Z.mod_add by lia.
  reflexivity.
Qed.

(** The fields of [String] are unchanged by one day of frames. *)
Lemma tc_fields_day (t : Timecode) :
  supported_pair (base t) (drop t) -> 0 <= frame t <= 9000000000000000000 ->
  tc_fields (mkTimecode (base t) (drop t)
               (frame t + (if drop t then 2589408 else 86400 * base t)))
  = tc_fields t.
Proof.
  destruct t as [b dr x]; cbn [base drop frame]. intros Hp Hx.
  destruct Hp as [[-> ->] | [[-> ->] | [-> ->]]].
  - unfold tc_fields; cbn [base drop frame]. apply fields_day; lia.
  - unfold tc_fields; cbn [base drop frame]. apply fields_day; lia.
  - unfold tc_fields; cbn [base drop frame].
    rewrite (Z.quot_div_nonneg (x + 2589408) 17982),
      (Z.rem_mod_nonneg (x + 2589408) 17982) by lia.
    rewrite (Z.quot_div_nonneg x 17982), (Z.rem_mod_nonneg x 17982) by lia.
    replace (x + 2589408) with (x + 144 * 17982) by ring.
    rewrite Z.div_add, Z.mod_add by lia.
    pose proof (Z.div_mod x 17982 ltac:(lia)) as Ex.
    pose proof (Z.mod_pos_bound x 17982 ltac:(lia)) as HM.
    assert (HD : 0 <= x / 17982) by (apply Z.div_pos; lia).
    assert (HD' : x / 17982 <= x) by (apply Z.div_le_upper_bound; lia).
    set (D := x / 17982) in *. set (M := x mod 17982) in *.
    assert (Hd : 0 <= Z.quot (M - 2) 1798 <= 9).
    { destruct (Z_lt_le_dec M 2) as [Hlt | Hge].
      - assert (M = 0 \/ M = 1) as [-> | ->] by lia; cbn; lia.
      - rewrite Z.quot_div_nonneg by lia. split; [apply Z.div_pos; lia|].
        apply Z.lt_succ_r, Z.div_lt_upper_bound; lia. }
    set (d := Z.quot (M - 2) 1798) in *.
    rewrite !wrap64_small by (unfold min_int, max_int; lia).
    replace (x + 144 * 17982 + (18 * (D + 144) + 2 * d))
      with ((x + (18 * D + 2 * d)) + 86400 * 30) by ring.
    apply fields_day; lia.
Qed.

(** [String] has a period of one day: adding one day of frames (2589408
    in drop-frame mode, [86400 * base] otherwise) to a supported timecode
    with a non-negative count prints the same text. *)
Theorem String_day_periodic (t : Timecode) :
  supported_pair (base t) (drop t) -> 0 <= frame t <= 9000000000000000000 ->
  String_ (Add t (if drop t then 2589408 else 86400 * base t)) = String_ t.
Proof.
  intros Hp Hx.
  assert (Hday : 0 <= (if drop t then 2589408 else 86400 * base t) <= 2592000)
    by (destruct Hp as [[-> ->] | [[-> ->] | [-> ->]]]; cbn; lia).
  unfold Add. rewrite wrap64_small by (unfold min_int, max_int; lia).
  unfold String_. rewrite (tc_fields_day t Hp Hx). reflexivity.
Qed.

(** [String] prints its four fields with two digits each. *)
Lemma String_tc_text (t : Timecode) (h m s f : Z) :
  tc_fields t = (h, m, s, f) ->
  0 <= h < 100 -> 0 <= m < 100 -> 0 <= s < 100 -> 0 <= f < 100 ->
  String_ t = tc_text (if drop t then ";" else ":") h m s f.
Proof.
  intros E Hh Hm Hs Hf. unfold String_. rewrite E.
  rewrite !pad2_dd by lia. reflexivity.
Qed.

(** The fields of a drop-frame [String], with the ten-minute groups [D],
    the minutes [d] into the group and the frames [off] into the minute
    of the stored count. *)
Lemma drop_fields_exact (x : Z) :
  0 <= x <= 9000000000000000000 ->
  exists D d off,
    x = 17982 * D + 1798 * d + off /\ 0 <= D /\ 0 <= d <= 9 /\ 0 <= off < 1800
    /\ tc_fields (mkTimecode 30 true x)
       = (((10 * D + d) / 60) mod 24, (10 * D + d) mod 60, off / 30, off mod 30).
Proof.
  intros Hx. unfold tc_fields; cbn [base frame drop].
  rewrite (Z.quot_div_nonneg x 17982), (Z.rem_mod_nonneg x 17982) by lia.
  pose proof (Z.div_mod x 17982 ltac:(lia)) as Ex.
  pose proof (Z.mod_pos_bound x 17982 ltac:(lia)) as HM.
  assert (HD : 0 <= x / 17982) by (apply Z.div_pos; lia).
  assert (HD' : x / 17982 <= x) by (apply Z.div_le_upper_bound; lia).
  set (D := x / 17982) in *. set (M := x mod 17982) in *.
  destruct (Z_lt_le_dec M 2) as [Hlt | Hge].
  - replace (Z.quot (M - 2) 1798) with 0
      by (assert (M = 0 \/ M = 1) as [-> | ->] by lia; reflexivity).
    rewrite wrap64_small by (unfold min_int, max_int; lia).
    exists D, 0, M.
    replace (x + (18 * D + 2 * 0)) with (1800 * (10 * D + 0) + M) by lia.
    rewrite fields_of_minutes by lia.
    repeat split; lia.
  - rewrite (Z.quot_div_nonneg (M - 2) 1798) by lia.
    pose proof (Z.div_mod (M - 2) 1798 ltac:(lia)) as EM.
    pose proof (Z.mod_pos_bound (M - 2) 1798 ltac:(lia)) as He.
    assert (Hd : 0 <= (M - 2) / 1798 <= 9).
    { split; [apply Z.div_pos; lia|].
      apply Z.lt_succ_r, Z.div_lt_upper_bound; lia. }
    set (d := (M - 2) / 1798) in *. set (e := (M - 2) mod 1798) in *.
    rewrite wrap64_small by (unfold min_int, max_int; lia).
    exists D, d, (e + 2).
    replace (x + (18 * D + 2 * d)) with (1800 * (10 * D + d) + (e + 2)) by lia.
    rewrite fields_of_minutes by lia.
    repeat split; lia.
Qed.

(** For a supported timecode with a non-negative count, [String] prints
    [hh:mm:ss] then [:] or [;] and [ff], with hours below 24, minutes and
    seconds below 60 and frames below the base. *)
Theorem String_well_formed (t : Timecode) :
  supported_pair (base t) (drop t) -> 0 <= frame t <= 9000000000000000000 ->
  exists h m s f,
    String_ t = tc_text (if drop t then ";" else ":") h m s f
    /\ 0 <= h < 24 /\ 0 <= m < 60 /\ 0 <= s < 60 /\ 0 <= f < base t.
Proof.
  destruct t as [b dr x]; cbn [base drop frame]. intros Hp Hx.
  assert (Hnd : forall b, (b = 24 \/ b = 30) ->
            exists h m s f,
              String_ (mkTimecode b false x) = tc_text ":" h m s f
              /\ 0 <= h < 24 /\ 0 <= m < 60 /\ 0 <= s < 60 /\ 0 <= f < b).
  { intros b' Hb'.
    assert (E : tc_fields (mkTimecode b' false x)
                = ((x / b' / 60 / 60) mod 24, (x / b' / 60) mod 60,
                   (x / b') mod 60, x mod b'))
      by (unfold tc_fields; cbn [base drop frame]; apply tc_nonneg_fields; lia).
    pose proof (Z.mod_pos_bound (x / b' / 60 / 60) 24 ltac:(lia)).
    pose proof (Z.mod_pos_bound (x / b' / 60) 60 ltac:(lia)).
    pose proof (Z.mod_pos_bound (x / b') 60 ltac:(lia)).
    pose proof (Z.mod_pos_bound x b' ltac:(lia)).
    do 4 eexists. split; [apply (String_tc_text _ _ _ _ _ E); lia|].
    repeat split; lia. }
  destruct Hp as [[-> ->] | [[-> ->] | [-> ->]]].
  - apply Hnd; lia.
  - apply Hnd; lia.
  - destruct (drop_fields_exact x Hx) as (D & d & off & _ & HD & Hd & Hoff & E).
    pose proof (Z.mod_pos_bound ((10 * D + d) / 60) 24 ltac:(lia)).
    pose proof (Z.mod_pos_bound (10 * D + d) 60 ltac:(lia)).
    pose proof (Z.mod_pos_bound off 30 ltac:(lia)).
    assert (off / 30 < 60) by (apply Z.div_lt_upper_bound; lia).
    assert (0 <= off / 30) by (apply Z.div_pos; lia).
    do 4 eexists. split; [apply (String_tc_text _ _ _ _ _ E); lia|].
    repeat split; lia.
Qed.

(** Printing then parsing a supported timecode whose count is within one
    day gives the same timecode back. *)
Theorem String_NewTimecode (t : Timecode) :
  supported_pair (base t) (drop t) ->
  0 <= frame t < (if drop t then 2589408 else 86400 * base t) ->
  NewTimecode (String_ t) (base t) (drop t) = inr t.
Proof.
  destruct t as [b dr x]; cbn [base drop frame]. intros Hp Hx.
  assert (Hnd : forall b, (b = 24 \/ b = 30) -> 0 <= x < 86400 * b ->
            exists h m s f,
              String_ (mkTimecode b false x) = tc_text ":" h m s f
              /\ 0 <= h < 24 /\ 0 <= m < 60 /\ 0 <= s < 60 /\ 0 <= f < b
              /\ x = 3600 * h * b + 60 * m * b + s * b + f).
  { intros b' Hb' Hx'.
    assert (E : tc_fields (mkTimecode b' false x)
                = ((x / b' / 60 / 60) mod 24, (x / b' / 60) mod 60,
                   (x / b') mod 60, x mod b'))
      by (unfold tc_fields; cbn [base drop frame]; apply tc_nonneg_fields; lia).
    pose proof (Z.div_mod x b' ltac:(lia)) as E1.
    pose proof (Z.div_mod (x / b') 60 ltac:(lia)) as E2.
    pose proof (Z.div_mod (x / b' / 60) 60 ltac:(lia)) as E3.
    pose proof (Z.mod_pos_bound (x / b' / 60) 60 ltac:(lia)).
    pose proof (Z.mod_pos_bound (x / b') 60 ltac:(lia)).
    pose proof (Z.mod_pos_bound x b' ltac:(lia)).
    assert (Hq1 : x / b' < 86400) by (apply Z.div_lt_upper_bound; lia).
    assert (Hq2 : x / b' / 60 < 1440) by (apply Z.div_lt_upper_bound; lia).
    assert (Hq3 : x / b' / 60 / 60 < 24) by (apply Z.div_lt_upper_bound; lia).
    assert (0 <= x / b' / 60 / 60) by (do 3 (apply Z.div_pos; try lia)).
    rewrite (Z.mod_small (x / b' / 60 / 60) 24) in E by lia.
    do 4 eexists. split; [apply (String_tc_text _ _ _ _ _ E); lia|].
    repeat split; lia. }
  destruct Hp as [[-> ->] | [[-> ->] | [-> ->]]].
  - destruct (Hnd 24 (or_introl eq_refl) Hx) as (h & m & s & f & E & Hh & Hm & Hs & Hf & Ex).
    rewrite E. destruct (read_groups_tc_text ":" h m s f) as [Hlen Hg];
      [reflexivity | lia | lia | lia | lia |].
    unfold NewTimecode. rewrite Hlen, Hg.
    cbn [negb orb andb Z.eqb Pos.eqb Nat.eqb]. cbv zeta. rewrite Ex. reflexivity.
  - destruct (Hnd 30 (or_intror eq_refl) Hx) as (h & m & s & f & E & Hh & Hm & Hs & Hf & Ex).
    rewrite E. destruct (read_groups_tc_text ":" h m s f) as [Hlen Hg];
      [reflexivity | lia | lia | lia | lia |].
    unfold NewTimecode. rewrite Hlen, Hg.
    cbn [negb orb andb Z.eqb Pos.eqb Nat.eqb]. cbv zeta. rewrite Ex. reflexivity.
  - destruct (drop_fields_exact x ltac:(lia)) as (D & d & off & Ex & HD & Hd & Hoff & E).
    assert (HD' : D <= 143) by lia.
    set (Tm := 10 * D + d) in *.
    pose proof (Z.div_mod Tm 60 ltac:(lia)) as ET.
    pose proof (Z.mod_pos_bound Tm 60 ltac:(lia)).
    pose proof (Z.div_mod off 30 ltac:(lia)) as Eoff.
    pose proof (Z.mod_pos_bound off 30 ltac:(lia)).
    assert (off / 30 < 60) by (apply Z.div_lt_upper_bound; lia).
    assert (0 <= off / 30) by (apply Z.div_pos; lia).
    assert (Tm / 60 < 24) by (apply Z.div_lt_upper_bound; lia).
    assert (0 <= Tm / 60) by (apply Z.div_pos; lia).
    rewrite (Z.mod_small (Tm / 60) 24) in E by lia.
    rewrite (String_tc_text _ _ _ _ _ E) by lia. cbn [drop].
    destruct (read_groups_tc_text ";" (Tm / 60) (Tm mod 60) (off / 30) (off mod 30))
      as [Hlen Hg]; [reflexivity | lia | lia | lia | lia |].
    unfold NewTimecode. rewrite Hlen, Hg.
    cbn [negb orb andb Z.eqb Pos.eqb Nat.eqb]. cbv zeta.
    replace (60 * (Tm / 60) + Tm mod 60) with Tm by lia.
    destruct (quot_rem_unique Tm 10 D d) as [Eq _]; [lia | lia | unfold Tm; ring |].
    rewrite Eq. do 2 f_equal. lia.
Qed.


(** A string with prefix [p] is [p] followed by the rest. *)
Lemma prefix_app (p s : string) :
  String.prefix p s = true -> exists r, s = p ++ r.
Proof.
  revert s. induction p as [|a p IH]; intros s H; [exists s; reflexivity|].
  destruct s as [|b s]; [discriminate|]. cbn in H.
  destruct (ascii_dec a b) as [<-|]; [|discriminate].
  destruct (IH s H) as [r ->]. exists r. reflexivity.
Qed.

(** A line beginning with ["Stream #0:"] has ["Stream"] as its first
    field. *)
Lemma Fields_Stream (l : string) :
  has_prefix l "Stream #0:" = true -> exists rest, Fields l = "Stream" :: rest.
Proof.
  unfold has_prefix. intros H. destruct (prefix_app _ _ H) as [r ->].
  eexists. reflexivity.
Qed.

(** The index found by the ["fps"] search is within the fields. *)
Lemma fps_token_index_range (flds : list string) (i j : nat) :
  fps_token_index flds i = Some j -> (i <= j < i + List.length flds)%nat.
Proof.
  revert i. induction flds as [|f fl IH]; intros i H; [discriminate|].
  cbn in H. destruct (String.eqb f "fps" || String.eqb f "fps,").
  - injection H as <-. cbn. lia.
  - apply IH in H. cbn. lia.
Qed.

(** Trimming leading digits never makes a string longer. *)
Lemma TrimLeftDigits_length (s : string) :
  (String.length (TrimLeftDigits s) <= String.length s)%nat.
Proof.
  induction s as [|c s IH]; [reflexivity|]. cbn.
  destruct (is_digit c); cbn; lia.
Qed.

(** A run of digits read onto a non-negative accumulator stays
    non-negative. *)
Lemma digits_value_nonneg (s : string) (acc v : Z) :
  0 <= acc -> digits_value s acc = Some v -> 0 <= v.
Proof.
  revert acc. induction s as [|c s IH]; intros acc Hacc H; cbn in H.
  - injection H as <-. exact Hacc.
  - destruct (is_digit c) eqn:Hc; [|discriminate].
    apply is_digit_range in Hc. apply (IH (acc * 10 + digit_val c)); [lia | exact H].
Qed.

(** The stream number read from a video line is never negative: it is
    the run of digits right after ["Stream #0:"]. *)
Lemma stream_number_nonneg (rest : string) (v : Z) :
  atoi (substring 0 (String.length rest - String.length (TrimLeftDigits rest)) rest)
  = Some v -> 0 <= v.
Proof.
  destruct rest as [|c r]; [discriminate|].
  cbn [TrimLeftDigits]. destruct (is_digit c) eqn:Hc.
  - pose proof (TrimLeftDigits_length r).
    replace (String.length (String c r) - String.length (TrimLeftDigits r))%nat
      with (S (String.length r - String.length (TrimLeftDigits r)))%nat by (cbn [String.length]; lia).
    cbn [substring]. set (n := substring 0 _ r).
    unfold atoi.
    assert (Hm : Ascii.eqb c "-" = false).
    { destruct (Ascii.eqb c "-") eqn:E; [|reflexivity].
      apply Ascii.eqb_eq in E. subst c. discriminate. }
    assert (Hp : Ascii.eqb c "+" = false).
    { destruct (Ascii.eqb c "+") eqn:E; [|reflexivity].
      apply Ascii.eqb_eq in E. subst c. discriminate. }
    rewrite Hm, Hp.
    destruct (digits_value (String c n) 0) as [w|] eqn:Hw; [|discriminate].
    destruct (_ && _); [|discriminate].
    intros Hv. injection Hv as <-. exact (digits_value_nonneg _ 0 w ltac:(lia) Hw).
  - rewrite Nat.sub_diag. discriminate.
Qed.

(** The overview loop either keeps the video stream index or sets it to a
    non-negative number. *)
Lemma scan_overview_idx (ls : list string) (fps : string) (idx : Z)
    (fps' : string) (idx' : Z) :
  scan_overview ls fps idx = OOk (fps', idx') -> idx' = idx \/ 0 <= idx'.
Proof.
  revert fps idx. induction ls as [|l ls IH]; intros fps idx H; cbn [scan_overview] in H.
  - inversion H; subst; left; reflexivity.
  - destruct (has_prefix (TrimSpace l) "Stream #0:" && String.eqb fps ""); [|exact (IH _ _ H)].
    destruct (nth_error (Fields (TrimSpace l)) 2) as [fld2|]; [|discriminate].
    destruct (negb (String.eqb fld2 "Video:")); [exact (IH _ _ H)|].
    destruct (Nat.eqb _ 0); [discriminate|].
    destruct (atoi _) as [v|] eqn:Ha; [|discriminate].
    apply stream_number_nonneg in Ha.
    destruct (fps_token_index _ 0) as [[|k]|].
    + discriminate.
    + destruct (nth_error _ k); [|discriminate].
      destruct (IH _ _ H); right; lia.
    + destruct (IH _ _ H); right; lia.
Qed.

(** The overview loop panics only on a ["Stream #0:"] line with fewer
    than three fields. *)
Lemma scan_overview_panic (ls : list string) (fps : string) (idx : Z) :
  scan_overview ls fps idx = OPanic ->
  exists l, In l ls /\ has_prefix (TrimSpace l) "Stream #0:" = true
            /\ (List.length (Fields (TrimSpace l)) < 3)%nat.
Proof.
  revert fps idx. induction ls as [|l ls IH]; intros fps idx H; cbn [scan_overview] in H;
    [discriminate|].
  assert (Rec : forall f i, scan_overview ls f i = OPanic ->
            exists l', In l' (l :: ls) /\ has_prefix (TrimSpace l') "Stream #0:" = true
                       /\ (List.length (Fields (TrimSpace l')) < 3)%nat).
  { intros f i Hf. destruct (IH f i Hf) as (l' & Hin & Hrest). exists l'.
    split; [right; exact Hin | exact Hrest]. }
  destruct (has_prefix (TrimSpace l) "Stream #0:" && String.eqb fps "") eqn:Hpre;
    [|exact (Rec _ _ H)].
  apply andb_true_iff in Hpre. destruct Hpre as [Hpre _].
  destruct (nth_error (Fields (TrimSpace l)) 2) as [fld2|] eqn:H2.
  2:{ exists l. split; [left; reflexivity|]. split; [exact Hpre|].
      apply nth_error_None in H2. lia. }
  destruct (negb (String.eqb fld2 "Video:")); [exact (Rec _ _ H)|].
  destruct (Nat.eqb _ 0); [discriminate|].
  destruct (atoi _) as [v|]; [|discriminate].
  destruct (Fields_Stream _ Hpre) as [flds Hf].
  destruct (fps_token_index (Fields (TrimSpace l)) 0) as [[|k]|] eqn:Hk.
  - rewrite Hf in Hk. cbn in Hk.
    apply fps_token_index_range in Hk. lia.
  - destruct (nth_error (Fields (TrimSpace l)) k) eqn:Hn; [exact (Rec _ _ H)|].
    apply fps_token_index_range in Hk. apply nth_error_None in Hn. lia.
  - exact (Rec _ _ H).
Qed.

(** A panic of [parse] comes from an overview line that begins with
    ["Stream #0:"] and has fewer than three fields. *)
Theorem parse_panic_source (title : string -> string) (data : string) (cfg : config) :
  parse title data cfg = None ->
  exists idx l, Index data "[STREAM]" = Some idx
    /\ In l (SplitLines (substring 0 idx data))
    /\ has_prefix (TrimSpace l) "Stream #0:" = true
    /\ (List.length (Fields (TrimSpace l)) < 3)%nat.
Proof.
  unfold parse. destruct (extract data) as [| e | [fps b]] eqn:Hex;
    [|discriminate|discriminate].
  intros _. unfold extract in Hex.
  destruct (Index data "[STREAM]") as [idx|]; [|discriminate].
  exists idx.
  destruct (scan_overview (SplitLines (substring 0 idx data)) "" (-1))
    as [| e | [fps vi]] eqn:Hs; [| discriminate |].
  - destruct (scan_overview_panic _ _ _ Hs) as (l & Hl). exists l. split; [reflexivity | exact Hl].
  - exfalso. apply scan_overview_idx in Hs.
    destruct (vi =? -1) eqn:E1; [discriminate|]. apply Z.eqb_neq in E1.
    destruct (vi >=? _) eqn:E2; [discriminate|]. rewrite Z.geb_leb in E2. apply Z.leb_gt in E2.
    destruct (vi <? 0) eqn:E3; [apply Z.ltb_lt in E3; lia|].
    destruct (nth_error _ _) eqn:E4.
    + destruct (scan_block _ _ _); discriminate.
    + apply nth_error_None in E4. lia.
Qed.

(** Once a frame rate has been read, the remaining overview lines change
    neither the frame rate nor the video stream index, and raise no error. *)
Theorem overview_after_fps (ls : list string) (fps : string) (idx : Z) :
  fps <> "" -> scan_overview ls fps idx = OOk (fps, idx).
Proof.
  intros Hf. induction ls as [|l ls IH]; cbn [scan_overview]; [reflexivity|].
  replace (String.eqb fps "") with false
    by (symmetry; apply String.eqb_neq; exact Hf).
  rewrite andb_false_r. exact IH.
Qed.


(** A field that no step of a run changes keeps its value. *)
Lemma run_steps_keeps (steps : list M) (j : nat) :
  (forall i st, nth_error steps i = Some st ->
     forall r, get_field j (fst (st r)) = get_field j r) ->
  forall r, get_field j (fst (run_steps steps r)) = get_field j r.
Proof.
  induction steps as [|st steps IH]; intros Hst r; [reflexivity|].
  cbn [run_steps fold_right]. unfold seq.
  pose proof (Hst 0%nat st eq_refl r) as E.
  destruct (st r) as [r1 [e|]]; cbn [fst] in *; [exact E|].
  fold (run_steps steps). rewrite IH; [exact E|].
  intros i s Hi. apply (Hst (S i)). exact Hi.
Qed.

(** A field whose step does nothing stays empty. *)
Lemma idle_field_empty (title : string -> string) cfg fps b (j : nat) st :
  nth_error (field_steps title cfg fps b) j = Some st ->
  (forall r, st r = (r, None)) ->
  get_field j (fst (run_steps (field_steps title cfg fps b) empty_result)) = "".
Proof.
  intros Hj Hskip. rewrite run_steps_keeps; [apply get_field_empty|].
  intros i st' Hi r. destruct (Nat.eq_dec i j) as [-> | Hne].
  - rewrite Hj in Hi. injection Hi as <-. rewrite Hskip. reflexivity.
  - apply (field_steps_only title cfg fps b i st' Hi r j). lia.
Qed.

(** Every field that the configuration does not request is empty in the
    result of [parse], whether or not it reports an error. *)
Lemma unrequested_empty (title : string -> string) (data : string) (cfg : config)
    (res : result) (err : option error) :
  parse title data cfg = Some (res, err) ->
  (cfg_start cfg = false -> res_start res = "")
  /\ (cfg_end cfg = false -> res_end res = "")
  /\ (cfg_duration cfg = false -> res_duration res = "")
  /\ (cfg_fps cfg = false -> res_fps res = "")
  /\ (cfg_resolution cfg = false -> res_resolution res = "")
  /\ (cfg_codec cfg = false -> res_codec res = "")
  /\ (cfg_colorspace cfg = false -> res_colorspace res = "").
Proof.
  unfold parse. destruct (extract data) as [| e | [fps b]]; [discriminate| |].
  - intros H. injection H as <- _. repeat split; reflexivity.
  - intros H0.
    assert (H : run_steps (field_steps title cfg fps b) empty_result = (res, err))
      by (injection H0 as H0; exact H0).
    assert (Hres : res = fst (run_steps (field_steps title cfg fps b) empty_result))
      by (rewrite H; reflexivity).
    rewrite Hres.
    repeat split; intros Hc;
      [ change (res_start ?r) with (get_field 0 r);
        apply (idle_field_empty title cfg fps b 0 (field_start cfg b) eq_refl);
        intros r; unfold field_start; rewrite Hc; reflexivity
      | change (res_end ?r) with (get_field 1 r);
        apply (idle_field_empty title cfg fps b 1 (field_end cfg fps b) eq_refl);
        intros r; unfold field_end; rewrite Hc; reflexivity
      | change (res_duration ?r) with (get_field 2 r);
        apply (idle_field_empty title cfg fps b 2 (field_duration cfg b) eq_refl);
        intros r; unfold field_duration; rewrite Hc; reflexivity
      | change (res_fps ?r) with (get_field 3 r);
        apply (idle_field_empty title cfg fps b 3 (field_fps cfg fps) eq_refl);
        intros r; unfold field_fps; rewrite Hc; reflexivity
      | change (res_resolution ?r) with (get_field 4 r);
        apply (idle_field_empty title cfg fps b 4 (field_resolution cfg b) eq_refl);
        intros r; unfold field_resolution; rewrite Hc; reflexivity
      | change (res_codec ?r) with (get_field 5 r);
        apply (idle_field_empty title cfg fps b 5 (field_codec title cfg b) eq_refl);
        intros r; unfold field_codec; rewrite Hc; reflexivity
      | change (res_colorspace ?r) with (get_field 6 r);
        apply (idle_field_empty title cfg fps b 6 (field_colorspace cfg b) eq_refl);
        intros r; unfold field_colorspace; rewrite Hc; reflexivity ].
Qed.

(** A successful run of seven steps passes through six intermediate
    results. *)
Lemma run7 (s1 s2 s3 s4 s5 s6 s7 : M) (r0 res : result) :
  run_steps [s1; s2; s3; s4; s5; s6; s7] r0 = (res, None) ->
  exists r1 r2 r3 r4 r5 r6,
    s1 r0 = (r1, None) /\ s2 r1 = (r2, None) /\ s3 r2 = (r3, None)
    /\ s4 r3 = (r4, None) /\ s5 r4 = (r5, None) /\ s6 r5 = (r6, None)
    /\ s7 r6 = (res, None).
Proof.
  unfold run_steps; cbn [fold_right]; unfold seq.
  destruct (s1 r0) as [r1 [e|]] eqn:E1; [discriminate|].
  destruct (s2 r1) as [r2 [e|]] eqn:E2; [discriminate|].
  destruct (s3 r2) as [r3 [e|]] eqn:E3; [discriminate|].
  destruct (s4 r3) as [r4 [e|]] eqn:E4; [discriminate|].
  destruct (s5 r4) as [r5 [e|]] eqn:E5; [discriminate|].
  destruct (s6 r5) as [r6 [e|]] eqn:E6; [discriminate|].
  destruct (s7 r6) as [r7 [e|]] eqn:E7; [discriminate|].
  unfold skip. intros H. injection H as <-.
  exists r1, r2, r3, r4, r5, r6. repeat split; assumption.
Qed.

(** What a successful [parse] returns for each requested field. *)
Lemma parse_success_fields (title : string -> string) (data : string)
    (cfg : config) (res : result) :
  parse title data cfg = Some (res, None) ->
  exists fps b, extract data = OOk (fps, b)
  /\ (cfg_start cfg = true -> timecode b <> "" /\ res_start res = timecode b)
  /\ (cfg_end cfg = true ->
      exists t, supported_fps fps = true /\ frames b <> 0
        /\ NewTimecode (timecode b) (fps_base fps) (fps_drop fps) = inr t
        /\ res_end res = String_ (Add t (wrap64 (frames b - 1))))
  /\ (cfg_duration cfg = true -> frames b <> 0 /\ res_duration res = itoa (frames b))
  /\ (cfg_fps cfg = true -> res_fps res = fps)
  /\ (cfg_resolution cfg = true ->
      width b <> "" /\ height b <> ""
      /\ res_resolution res = width b ++ "*" ++ height b)
  /\ (cfg_codec cfg = true ->
      res_codec res = title (codec b) ++ " " ++ codec_profile b ++ " / " ++ pix_fmt b)
  /\ (cfg_colorspace cfg = true -> res_colorspace res = colorspace b).
Proof.
  unfold parse. destruct (extract data) as [| e | [fps b]]; try discriminate.
  intros H0. exists fps, b. split; [reflexivity|].
  assert (H : run_steps (field_steps title cfg fps b) empty_result = (res, None))
    by (injection H0 as H0; exact H0).
  clear H0.
  destruct (run7 _ _ _ _ _ _ _ _ _ H)
    as (r1 & r2 & r3 & r4 & r5 & r6 & E1 & E2 & E3 & E4 & E5 & E6 & E7).
  assert (K : forall i st r r', nth_error (field_steps title cfg fps b) i = Some st ->
                st r = (r', None) -> forall j, j <> i -> get_field j r' = get_field j r).
  { intros i st r r' Hi Hs j Hj.
    pose proof (field_steps_only title cfg fps b i st Hi r j Hj) as P.
    rewrite Hs in P. exact P. }
  pose proof (K 0%nat _ _ _ eq_refl E1) as K1.
  pose proof (K 1%nat _ _ _ eq_refl E2) as K2.
  pose proof (K 2%nat _ _ _ eq_refl E3) as K3.
  pose proof (K 3%nat _ _ _ eq_refl E4) as K4.
  pose proof (K 4%nat _ _ _ eq_refl E5) as K5.
  pose proof (K 5%nat _ _ _ eq_refl E6) as K6.
  pose proof (K 6%nat _ _ _ eq_refl E7) as K7.
  clear K H.
  refine (conj _ (conj _ (conj _ (conj _ (conj _ (conj _ _)))))); intros Hc.
  - unfold field_start in E1. rewrite Hc in E1.
    destruct (String.eqb (timecode b) "") eqn:Et; [discriminate|].
    apply String.eqb_neq in Et. split; [exact Et|].
    injection E1 as <-.
    change (res_start res) with (get_field 0 res).
    rewrite K7, K6, K5, K4, K3, K2 by lia. reflexivity.
  - unfold field_end in E2. rewrite Hc in E2.
    destruct (String.eqb (timecode b) ""); [discriminate|].
    destruct (String.eqb fps ""); [discriminate|].
    destruct (frames b =? 0) eqn:Ef; [discriminate|].
    destruct (supported_fps fps) eqn:Hs; [|discriminate]. cbn [negb] in E2.
    destruct (NewTimecode (timecode b) (fps_base fps) (fps_drop fps)) as [e|t];
      [discriminate|].
    injection E2 as <-. exists t.
    split; [reflexivity|]. split; [apply Z.eqb_neq; exact Ef|].
    split; [reflexivity|].
    change (res_end res) with (get_field 1 res).
    rewrite K7, K6, K5, K4, K3 by lia. reflexivity.
  - unfold field_duration in E3. rewrite Hc in E3.
    destruct (frames b =? 0) eqn:Ef; [discriminate|].
    split; [apply Z.eqb_neq; exact Ef|].
    injection E3 as <-.
    change (res_duration res) with (get_field 2 res).
    rewrite K7, K6, K5, K4 by lia. reflexivity.
  - unfold field_fps in E4. rewrite Hc in E4. injection E4 as <-.
    change (res_fps res) with (get_field 3 res).
    rewrite K7, K6, K5 by lia. reflexivity.
  - unfold field_resolution in E5. rewrite Hc in E5.
    destruct (String.eqb (width b) "") eqn:Ew; [discriminate|].
    destruct (String.eqb (height b) "") eqn:Eh; [discriminate|].
    apply String.eqb_neq in Ew, Eh. split; [exact Ew|]. split; [exact Eh|].
    injection E5 as <-.
    change (res_resolution res) with (get_field 4 res).
    rewrite K7, K6 by lia. reflexivity.
  - unfold field_codec in E6. rewrite Hc in E6. injection E6 as <-.
    change (res_codec res) with (get_field 5 res).
    rewrite K7 by lia. reflexivity.
  - unfold field_colorspace in E7. rewrite Hc in E7. injection E7 as <-.
    reflexivity.
Qed.

(** Reading a field other than the timecode leaves the timecode as it
    was. *)
Lemma first_seen_timecode (l key : string) (get : block -> string)
    (set : block -> string -> block) (b : block) :
  (forall b v, timecode (set b v) = timecode b) ->
  timecode (first_seen l key get set b) = timecode b.
Proof. intros Hs. unfold first_seen. destruct (_ && _); [apply Hs | reflexivity]. Qed.

(** One block line keeps the timecode unset or 11 characters long. *)
Lemma scan_line_tc (l : string) (b b' : block) :
  tc_ok b -> scan_line l b = inr b' -> tc_ok b'.
Proof.
  intros Hb. unfold scan_line. cbv zeta.
  destruct (if has_prefix l "nb_frames=" && (frames b =? 0) then _ else inr b)
    as [e|b1] eqn:Enb; [discriminate|].
  assert (K1 : timecode b1 = timecode b).
  { destruct (has_prefix l "nb_frames=" && (frames b =? 0)).
    - destruct (atoi _) as [n|]; [|discriminate]. injection Enb as <-. reflexivity.
    - injection Enb as <-. reflexivity. }
  set (B := first_seen l "color_space=" colorspace set_colorspace
             (first_seen l "pix_fmt=" pix_fmt set_pix_fmt
               (first_seen l "profile=" codec_profile set_codec_profile
                 (first_seen l "codec_name=" codec set_codec
                   (first_seen l "height=" height set_height
                     (first_seen l "width=" width set_width b1)))))).
  assert (KB : timecode B = timecode b).
  { unfold B. rewrite !first_seen_timecode by reflexivity. exact K1. }
  destruct (has_prefix l "TAG:timecode=").
  - destruct (Nat.eqb (String.length (trim_prefix l "TAG:timecode=")) 11) eqn:E11;
      cbn [negb]; [|discriminate].
    intros H. injection H as <-. right. apply Nat.eqb_eq. exact E11.
  - intros H. injection H as <-. unfold tc_ok. rewrite KB. exact Hb.
Qed.

(** The whole block scan keeps the timecode unset or 11 characters long. *)
Lemma scan_block_tc (fps : string) (lines : list string) (b b' : block) :
  tc_ok b -> scan_block fps lines b = inr b' -> tc_ok b'.
Proof.
  revert b. induction lines as [|l ls IH]; intros b Hb H; cbn [scan_block] in H.
  - injection H as <-. exact Hb.
  - destruct (scan_done fps b); [injection H as <-; exact Hb|].
    destruct (scan_line l b) as [e|b1] eqn:Hl; [discriminate|].
    exact (IH b1 (scan_line_tc l b b1 Hb Hl) H).
Qed.

(** A requested start timecode returned by a successful [parse] always
    has 11 characters. *)
Theorem start_length (title : string -> string) (data : string) (cfg : config)
    (res : result) :
  parse title data cfg = Some (res, None) -> cfg_start cfg = true ->
  String.length (res_start res) = 11%nat.
Proof.
  intros H Hc.
  destruct (parse_success_fields title data cfg res H)
    as (fps & b & Hex & Hst & _).
  destruct (Hst Hc) as [Hne ->].
  destruct (extract_scan data fps b Hex) as [lines Hs].
  destruct (scan_block_tc fps lines block0 b (or_introl eq_refl) Hs) as [E | E];
    [contradiction | exact E].
Qed.

(** The print of one field of [main]. *)
Lemma print_one (c : bool) (x : string) :
  (c = false -> x = "") ->
  (if String.eqb x "" then [] else [x])
  = map snd (filter (fun p => fst p && negb (String.eqb (snd p) "")) [(c, x)]).
Proof.
  intros H. destruct c; cbn.
  - destruct (String.eqb x ""); reflexivity.
  - rewrite H by reflexivity. reflexivity.
Qed.

(** When [main] prints, it ran [ffprobe] on its one argument, [parse]
    succeeded, and the printed lines are the requested fields of the
    result that are not empty, in the order start, end, duration, fps,
    resolution, codec, colorspace. *)
Theorem main_prints_requested (title : string -> string) (args : list string)
    (cfg : config) (ffprobe : string -> string * bool) (lines : list string) :
  main_run title args cfg ffprobe = MPrint lines ->
  exists file out res,
    args = [file] /\ ffprobe file = (out, true)
    /\ parse title out cfg = Some (res, None)
    /\ lines = map snd (filter (fun p => fst p && negb (String.eqb (snd p) ""))
                 [(cfg_start cfg, res_start res); (cfg_end cfg, res_end res);
                  (cfg_duration cfg, res_duration res); (cfg_fps cfg, res_fps res);
                  (cfg_resolution cfg, res_resolution res);
                  (cfg_codec cfg, res_codec res);
                  (cfg_colorspace cfg, res_colorspace res)]).
Proof.
  unfold main_run. destruct args as [|file [|a args]]; try discriminate.
  destruct (_ && _); [discriminate|].
  destruct (ffprobe file) as [out ok] eqn:Hf.
  destruct ok; cbn [negb]; [|discriminate].
  destruct (parse title out cfg) as [[res [e|]]|] eqn:Hp; try discriminate.
  intros H. injection H as <-.
  exists file, out, res. split; [reflexivity|]. split; [exact Hf|].
  split; [exact Hp|].
  destruct (unrequested_empty title out cfg res None Hp)
    as (U1 & U2 & U3 & U4 & U5 & U6 & U7).
  unfold print_result.
  rewrite (print_one _ _ U1), (print_one _ _ U2), (print_one _ _ U3),
    (print_one _ _ U4), (print_one _ _ U5), (print_one _ _ U6), (print_one _ _ U7).
  rewrite <- !map_app, <- !filter_app. reflexivity.
Qed.

(** Seven steps that each succeed make a successful run. *)
Lemma run7_intro (s1 s2 s3 s4 s5 s6 s7 : M) (r0 r1 r2 r3 r4 r5 r6 r7 : result) :
  s1 r0 = (r1, None) -> s2 r1 = (r2, None) -> s3 r2 = (r3, None) ->
  s4 r3 = (r4, None) -> s5 r4 = (r5, None) -> s6 r5 = (r6, None) ->
  s7 r6 = (r7, None) ->
  run_steps [s1; s2; s3; s4; s5; s6; s7] r0 = (r7, None).
Proof.
  intros E1 E2 E3 E4 E5 E6 E7.
  unfold run_steps; cbn [fold_right]; unfold seq.
  rewrite E1, E2, E3, E4, E5, E6, E7. reflexivity.
Qed.

(** When the conditions of the requested fields hold, [parse] succeeds. *)
Lemma parse_success_intro (title : string -> string) (data : string)
    (cfg : config) (fps : string) (b : block) :
  extract data = OOk (fps, b) ->
  (cfg_start cfg = true -> timecode b <> "") ->
  (cfg_end cfg = true ->
   exists t, supported_fps fps = true /\ frames b <> 0
     /\ NewTimecode (timecode b) (fps_base fps) (fps_drop fps) = inr t) ->
  (cfg_duration cfg = true -> frames b <> 0) ->
  (cfg_resolution cfg = true -> width b <> "" /\ height b <> "") ->
  exists res, parse title data cfg = Some (res, None).
Proof.
  intros Hex Hs He Hd Hr.
  assert (O1 : forall r, exists r', field_start cfg b r = (r', None)).
  { intros r. unfold field_start. destruct (cfg_start cfg) eqn:Hc; [|eexists; reflexivity].
    destruct (String.eqb (timecode b) "") eqn:E;
      [apply String.eqb_eq in E; exfalso; exact (Hs eq_refl E) | eexists; reflexivity]. }
  assert (O2 : forall r, exists r', field_end cfg fps b r = (r', None)).
  { intros r. unfold field_end. destruct (cfg_end cfg) eqn:Hc; [|eexists; reflexivity].
    destruct (He eq_refl) as (t & Hsup & Hf & Ht).
    pose proof (NewTimecode_length _ _ _ _ Ht) as Hlen.
    destruct (String.eqb (timecode b) "") eqn:E1.
    { apply String.eqb_eq in E1. rewrite E1 in Hlen. discriminate. }
    destruct (String.eqb fps "") eqn:E2.
    { apply String.eqb_eq in E2. subst fps. discriminate. }
    replace (frames b =? 0) with false by (symmetry; apply Z.eqb_neq; exact Hf).
    rewrite Hsup, Ht. eexists; reflexivity. }
  assert (O3 : forall r, exists r', field_duration cfg b r = (r', None)).
  { intros r. unfold field_duration. destruct (cfg_duration cfg) eqn:Hc; [|eexists; reflexivity].
    replace (frames b =? 0) with false by (symmetry; apply Z.eqb_neq; exact (Hd eq_refl)).
    eexists; reflexivity. }
  assert (O5 : forall r, exists r', field_resolution cfg b r = (r', None)).
  { intros r. unfold field_resolution.
    destruct (cfg_resolution cfg) eqn:Hc; [|eexists; reflexivity].
    destruct (Hr eq_refl) as [Hw Hh].
    replace (String.eqb (width b) "") with false by (symmetry; apply String.eqb_neq; exact Hw).
    replace (String.eqb (height b) "") with false by (symmetry; apply String.eqb_neq; exact Hh).
    eexists; reflexivity. }
  assert (O4 : forall r, exists r', field_fps cfg fps r = (r', None))
    by (intros r; unfold field_fps; destruct (cfg_fps cfg); eexists; reflexivity).
  assert (O6 : forall r, exists r', field_codec title cfg b r = (r', None))
    by (intros r; unfold field_codec; destruct (cfg_codec cfg); eexists; reflexivity).
  assert (O7 : forall r, exists r', field_colorspace cfg b r = (r', None))
    by (intros r; unfold field_colorspace; destruct (cfg_colorspace cfg); eexists; reflexivity).
  destruct (O1 empty_result) as [r1 E1]. destruct (O2 r1) as [r2 E2].
  destruct (O3 r2) as [r3 E3]. destruct (O4 r3) as [r4 E4].
  destruct (O5 r4) as [r5 E5]. destruct (O6 r5) as [r6 E6].
  destruct (O7 r6) as [r7 E7].
  exists r7. unfold parse. rewrite Hex. f_equal.
  exact (run7_intro _ _ _ _ _ _ _ _ _ _ _ _ _ _ _ E1 E2 E3 E4 E5 E6 E7).
Qed.

(** If [parse] succeeds for some requested fields, it succeeds for any
    subset of them, with the same values for the fields kept and empty
    strings for the others. *)
Theorem fewer_fields (title : string -> string) (data : string) (cfg cfg' : config)
    (res : result) :
  parse title data cfg = Some (res, None) ->
  (cfg_start cfg' = true -> cfg_start cfg = true) ->
  (cfg_end cfg' = true -> cfg_end cfg = true) ->
  (cfg_duration cfg' = true -> cfg_duration cfg = true) ->
  (cfg_fps cfg' = true -> cfg_fps cfg = true) ->
  (cfg_resolution cfg' = true -> cfg_resolution cfg = true) ->
  (cfg_codec cfg' = true -> cfg_codec cfg = true) ->
  (cfg_colorspace cfg' = true -> cfg_colorspace cfg = true) ->
  parse title data cfg'
  = Some (mkResult (if cfg_start cfg' then res_start res else "")
                   (if cfg_end cfg' then res_end res else "")
                   (if cfg_duration cfg' then res_duration res else "")
                   (if cfg_fps cfg' then res_fps res else "")
                   (if cfg_resolution cfg' then res_resolution res else "")
                   (if cfg_codec cfg' then res_codec res else "")
                   (if cfg_colorspace cfg' then res_colorspace res else ""),
          None).
Proof.
  intros H I1 I2 I3 I4 I5 I6 I7.
  destruct (parse_success_fields title data cfg res H)
    as (fps & b & Hex & F1 & F2 & F3 & F4 & F5 & F6 & F7).
  destruct (parse_success_intro title data cfg' fps b Hex) as [res' H'].
  - intros Hc. exact (proj1 (F1 (I1 Hc))).
  - intros Hc. destruct (F2 (I2 Hc)) as (t & A & B & C & _). exists t. auto.
  - intros Hc. exact (proj1 (F3 (I3 Hc))).
  - intros Hc. destruct (F5 (I5 Hc)) as (A & B & _). auto.
  - rewrite H'. f_equal. f_equal.
    destruct (parse_success_fields title data cfg' res' H')
      as (fps' & b' & Hex' & G1 & G2 & G3 & G4 & G5 & G6 & G7).
    rewrite Hex in Hex'. injection Hex' as <- <-.
    destruct (unrequested_empty title data cfg' res' None H')
      as (U1 & U2 & U3 & U4 & U5 & U6 & U7).
    destruct res' as [s' e' d' f' r' c' k']; cbn [res_start res_end res_duration
      res_fps res_resolution res_codec res_colorspace] in *.
    f_equal.
    + destruct (cfg_start cfg'); [|auto].
      rewrite (proj2 (G1 eq_refl)), (proj2 (F1 (I1 eq_refl))). reflexivity.
    + destruct (cfg_end cfg'); [|auto].
      destruct (G2 eq_refl) as (t' & _ & _ & Ht' & ->).
      destruct (F2 (I2 eq_refl)) as (t & _ & _ & Ht & ->).
      rewrite Ht in Ht'. injection Ht' as <-. reflexivity.
    + destruct (cfg_duration cfg'); [|auto].
      rewrite (proj2 (G3 eq_refl)), (proj2 (F3 (I3 eq_refl))). reflexivity.
    + destruct (cfg_fps cfg'); [|auto].
      rewrite (G4 eq_refl), (F4 (I4 eq_refl)). reflexivity.
    + destruct (cfg_resolution cfg'); [|auto].
      rewrite (proj2 (proj2 (G5 eq_refl))), (proj2 (proj2 (F5 (I5 eq_refl)))).
      reflexivity.
    + destruct (cfg_codec cfg'); [|auto].
      rewrite (G6 eq_refl), (F6 (I6 eq_refl)). reflexivity.
    + destruct (cfg_colorspace cfg'); [|auto].
      rewrite (G7 eq_refl), (F7 (I7 eq_refl)). reflexivity.
Qed.

(** What a successful [parse] returns: the block and frame rate read
    from the report, and for each requested field the value built from
    them; the start and the resolution fields are non-empty, the end needs
    a supported frame rate and a parsable timecode, and the end and the
    duration need a non-zero frame count. *)
Theorem parse_success_result (title : string -> string) (data : string)
    (cfg : config) (res : result) :
  parse title data cfg = Some (res, None) ->
  exists fps b, extract data = OOk (fps, b)
  /\ (cfg_start cfg = true -> timecode b <> "" /\ res_start res = timecode b)
  /\ (cfg_end cfg = true ->
      exists t, supported_fps fps = true /\ frames b <> 0
        /\ NewTimecode (timecode b) (fps_base fps) (fps_drop fps) = inr t
        /\ res_end res = String_ (Add t (wrap64 (frames b - 1))))
  /\ (cfg_duration cfg = true -> frames b <> 0 /\ res_duration res = itoa (frames b))
  /\ (cfg_fps cfg = true -> res_fps res = fps)
  /\ (cfg_resolution cfg = true ->
      width b <> "" /\ height b <> ""
      /\ res_resolution res = width b ++ "*" ++ height b)
  /\ (cfg_codec cfg = true ->
      res_codec res = title (codec b) ++ " " ++ codec_profile b ++ " / " ++ pix_fmt b)
  /\ (cfg_colorspace cfg = true -> res_colorspace res = colorspace b).
Proof. exact (parse_success_fields title data cfg res). Qed.

(** Every field that the configuration does not request is empty in what
    [parse] returns, also when it returns an error. *)
Theorem unrequested_fields_empty (title : string -> string) (data : string)
    (cfg : config) (res : result) (err : option error) :
  parse title data cfg = Some (res, err) ->
  (cfg_start cfg = false -> res_start res = "")
  /\ (cfg_end cfg = false -> res_end res = "")
  /\ (cfg_duration cfg = false -> res_duration res = "")
  /\ (cfg_fps cfg = false -> res_fps res = "")
  /\ (cfg_resolution cfg = false -> res_resolution res = "")
  /\ (cfg_codec cfg = false -> res_codec res = "")
  /\ (cfg_colorspace cfg = false -> res_colorspace res = "").
Proof. exact (unrequested_empty title data cfg res err). Qed.

Lemma String_day_periodic_witness :
  supported_pair 30 true /\ 0 <= 17982 <= 9000000000000000000
  /\ String_ (Add (mkTimecode 30 true 17982) 2589408)
     = String_ (mkTimecode 30 true 17982).
Proof.
  refine (conj _ (conj _ _)); [right; right; split; reflexivity | lia |].
  exact (String_day_periodic (mkTimecode 30 true 17982)
           ltac:(right; right; split; reflexivity) ltac:(cbn; lia)).
Defined.

Lemma String_well_formed_witness :
  supported_pair 30 true /\ 0 <= 17982 <= 9000000000000000000
  /\ exists h m s f,
       String_ (mkTimecode 30 true 17982) = tc_text ";" h m s f
       /\ 0 <= h < 24 /\ 0 <= m < 60 /\ 0 <= s < 60 /\ 0 <= f < 30.
Proof.
  refine (conj _ (conj _ _)); [right; right; split; reflexivity | lia |].
  exact (String_well_formed (mkTimecode 30 true 17982)
           ltac:(right; right; split; reflexivity) ltac:(cbn; lia)).
Defined.

Lemma String_NewTimecode_witness :
  supported_pair 30 true /\ 0 <= 17982 < 2589408
  /\ NewTimecode (String_ (mkTimecode 30 true 17982)) 30 true
     = inr (mkTimecode 30 true 17982).
Proof.
  refine (conj _ (conj _ _)); [right; right; split; reflexivity | lia |].
  exact (String_NewTimecode (mkTimecode 30 true 17982)
           ltac:(right; right; split; reflexivity) ltac:(cbn; lia)).
Defined.

Lemma parse_panic_source_witness :
  parse title_lower_ascii report_short_stream_line all_fields = None
  /\ exists idx l, Index report_short_stream_line "[STREAM]" = Some idx
     /\ In l (SplitLines (substring 0 idx report_short_stream_line))
     /\ has_prefix (TrimSpace l) "Stream #0:" = true
     /\ (List.length (Fields (TrimSpace l)) < 3)%nat.
Proof.
  assert (H : parse title_lower_ascii report_short_stream_line all_fields = None)
    by (vm_compute; reflexivity).
  exact (conj H (parse_panic_source _ _ _ H)).
Defined.

Lemma overview_after_fps_witness :
  "29.97" <> ""
  /\ scan_overview ["Stream #0:0: Video: prores, 25 fps"; "Stream #0:1"] "29.97" 0
     = OOk ("29.97", 0).
Proof.
  assert (H : "29.97" <> "") by discriminate.
  exact (conj H (overview_after_fps _ _ _ H)).
Defined.

Lemma start_length_witness :
  exists res, parse title_lower_ascii report_A all_fields = Some (res, None)
  /\ cfg_start all_fields = true /\ String.length (res_start res) = 11%nat.
Proof.
  destruct (parse title_lower_ascii report_A all_fields) as [[res [e|]]|] eqn:H;
    [vm_compute in H; discriminate | | vm_compute in H; discriminate].
  exists res. refine (conj eq_refl (conj eq_refl _)).
  exact (start_length _ _ _ _ H eq_refl).
Defined.

Lemma parse_success_result_witness :
  exists res, parse title_lower_ascii report_A all_fields = Some (res, None)
  /\ exists fps b, extract report_A = OOk (fps, b)
  /\ (cfg_start all_fields = true -> timecode b <> "" /\ res_start res = timecode b)
  /\ (cfg_end all_fields = true ->
      exists t, supported_fps fps = true /\ frames b <> 0
        /\ NewTimecode (timecode b) (fps_base fps) (fps_drop fps) = inr t
        /\ res_end res = String_ (Add t (wrap64 (frames b - 1))))
  /\ (cfg_duration all_fields = true -> frames b <> 0 /\ res_duration res = itoa (frames b))
  /\ (cfg_fps all_fields = true -> res_fps res = fps)
  /\ (cfg_resolution all_fields = true ->
      width b <> "" /\ height b <> ""
      /\ res_resolution res = width b ++ "*" ++ height b)
  /\ (cfg_codec all_fields = true ->
      res_codec res = title_lower_ascii (codec b) ++ " " ++ codec_profile b
                      ++ " / " ++ pix_fmt b)
  /\ (cfg_colorspace all_fields = true -> res_colorspace res = colorspace b).
Proof.
  destruct (parse title_lower_ascii report_A all_fields) as [[res [e|]]|] eqn:H;
    [vm_compute in H; discriminate | | vm_compute in H; discriminate].
  exists res. exact (conj eq_refl (parse_success_result _ _ _ _ H)).
Defined.

Lemma unrequested_fields_empty_witness :
  exists res err, parse title_lower_ascii report_no_width cfg_start_resolution
                  = Some (res, err)
  /\ err <> None
  /\ (cfg_start cfg_start_resolution = false -> res_start res = "")
  /\ (cfg_end cfg_start_resolution = false -> res_end res = "")
  /\ (cfg_duration cfg_start_resolution = false -> res_duration res = "")
  /\ (cfg_fps cfg_start_resolution = false -> res_fps res = "")
  /\ (cfg_resolution cfg_start_resolution = false -> res_resolution res = "")
  /\ (cfg_codec cfg_start_resolution = false -> res_codec res = "")
  /\ (cfg_colorspace cfg_start_resolution = false -> res_colorspace res = "").
Proof.
  destruct (parse title_lower_ascii report_no_width cfg_start_resolution)
    as [[res [e|]]|] eqn:H;
    [| vm_compute in H; discriminate | vm_compute in H; discriminate].
  exists res, (Some e). split; [reflexivity|]. split; [discriminate|].
  exact (unrequested_fields_empty _ _ _ _ _ H).
Defined.

Lemma main_prints_requested_witness :
  exists lines,
    main_run title_lower_ascii ["a.mov"] all_fields (fun _ => (report_A, true))
    = MPrint lines
  /\ exists file out res,
    ["a.mov"] = [file] /\ (fun _ : string => (report_A, true)) file = (out, true)
    /\ parse title_lower_ascii out all_fields = Some (res, None)
    /\ lines = map snd (filter (fun p => fst p && negb (String.eqb (snd p) ""))
                 [(cfg_start all_fields, res_start res); (cfg_end all_fields, res_end res);
                  (cfg_duration all_fields, res_duration res);
                  (cfg_fps all_fields, res_fps res);
                  (cfg_resolution all_fields, res_resolution res);
                  (cfg_codec all_fields, res_codec res);
                  (cfg_colorspace all_fields, res_colorspace res)]).
Proof.
  destruct (main_run title_lower_ascii ["a.mov"] all_fields (fun _ => (report_A, true)))
    as [| | o | e | | lines] eqn:H; try (vm_compute in H; discriminate).
  exists lines. exact (conj eq_refl (main_prints_requested _ _ _ _ _ H)).
Defined.

Lemma fewer_fields_witness :
  exists res, parse title_lower_ascii report_A all_fields = Some (res, None)
  /\ parse title_lower_ascii report_A cfg_start_resolution
     = Some (mkResult (res_start res) "" "" "" (res_resolution res) "" "", None).
Proof.
  destruct (parse title_lower_ascii report_A all_fields) as [[res [e|]]|] eqn:H;
    [vm_compute in H; discriminate | | vm_compute in H; discriminate].
  exists res. refine (conj eq_refl _).
  exact (fewer_fields _ _ all_fields cfg_start_resolution _ H
           (fun _ => eq_refl) (fun _ => eq_refl) (fun _ => eq_refl)
           (fun _ => eq_refl) (fun _ => eq_refl) (fun _ => eq_refl)
           (fun _ => eq_refl)).
Defined.
